(** * relabel: shipping-label classifier and two-up sheet composer

    A shallow embedding of the Python sources [cfg.py], [print.py],
    [flyer.py], [generate.py] and [train.py], and the properties of the
    specification checked against it.

    Conventions of the embedding:
    - a Python [str] is the list of its Unicode code points ([pystr]);
    - a [pathlib.Path] is the [str] it prints as;
    - an exception is its class together with the text [str(e)] gives;
    - code that reads or writes files, or prints, runs in the monad [M],
      which threads a [World] (file system and console) and
      either returns a value or raises;
    - PyMuPDF ([fitz]), Pillow, pdfplumber, joblib and scikit-learn are
      libraries outside the repository: the operations the sources call
      are given small models next to the code that uses them, following
      the libraries' documentation;
    - Python floats that hold page coordinates are rationals ([Q]). *)

From Stdlib Require Import ZArith NArith QArith Qround List String Ascii Lia.
From Stdlib Require Import DecimalString.
From stdpp Require Import gmap list.

Close Scope Q_scope.
Open Scope Z_scope.

(** ** Python strings *)

Module Str.

Definition pystr : Type := list N.

(** An ASCII literal as a [pystr]. *)
Definition lit (s : string) : pystr :=
  List.map N_of_ascii (list_ascii_of_string s).

(** [str.isspace] on one code point (CPython's [_PyUnicode_IsWhitespace]). *)
Definition isspace (c : N) : bool :=
  ((9 <=? c) && (c <=? 13) || (28 <=? c) && (c <=? 32)
   || (c =? 133) || (c =? 160) || (c =? 5760)
   || (8192 <=? c) && (c <=? 8202)
   || (c =? 8232) || (c =? 8233) || (c =? 8239) || (c =? 8287)
   || (c =? 12288))%N.

Fixpoint lstrip (s : pystr) : pystr :=
  match s with
  | c :: r => if isspace c then lstrip r else s
  | [] => []
  end.

Definition rstrip (s : pystr) : pystr := rev (lstrip (rev s)).

(** [s.strip()] *)
Definition strip (s : pystr) : pystr := rstrip (lstrip s).

(** Truth value of a [str]: non-empty. *)
Definition truthy (s : pystr) : bool :=
  match s with [] => false | _ => true end.

(** [sep.join(parts)] *)
Fixpoint join (sep : pystr) (parts : list pystr) : pystr :=
  match parts with
  | [] => []
  | [p] => p
  | p :: rest => p ++ sep ++ join sep rest
  end.

(** [s.endswith(suf)] *)
Definition endswith (s suf : pystr) : bool := bool_decide (suf `suffix_of` s).

(** [c in s] for a one-character [c]. *)
Definition contains (c : N) (s : pystr) : bool := bool_decide (c ∈ s).

(** The cut of [s] at the first occurrence of the character [sep]. *)
Fixpoint cut (sep : N) (s : pystr) : option (pystr * pystr) :=
  match s with
  | [] => None
  | c :: r =>
      if (c =? sep)%N then Some ([], r)
      else match cut sep r with
           | Some (a, b) => Some (c :: a, b)
           | None => None
           end
  end.

(** [s.split(sep, 1)] for a one-character [sep]. *)
Definition split1 (sep : N) (s : pystr) : list pystr :=
  match cut sep s with
  | Some (a, b) => [a; b]
  | None => [s]
  end.

(** [s.rsplit(sep, 1)] for a one-character [sep]. *)
Definition rsplit1 (sep : N) (s : pystr) : list pystr :=
  match cut sep (rev s) with
  | Some (b, a) => [rev a; rev b]
  | None => [s]
  end.

Definition dot : N := 46.
Definition hyphen : N := 45.
Definition quote : N := 39.

End Str.
Export Str.

(** ** Exceptions and the effect monad *)

Inductive exn_class :=
| RuntimeError
| ValueError
| IndexError
| AttributeError
| OSError
| FileNotFoundError
| IsADirectoryError
| FileDataError
| PDFSyntaxError
| UnpicklingError
| UnicodeDecodeError.

(** [type(e).__name__] *)
Definition class_name (c : exn_class) : string :=
  match c with
  | RuntimeError => "RuntimeError"
  | ValueError => "ValueError"
  | IndexError => "IndexError"
  | AttributeError => "AttributeError"
  | OSError => "OSError"
  | FileNotFoundError => "FileNotFoundError"
  | IsADirectoryError => "IsADirectoryError"
  | FileDataError => "FileDataError"
  | PDFSyntaxError => "PDFSyntaxError"
  | UnpicklingError => "UnpicklingError"
  | UnicodeDecodeError => "UnicodeDecodeError"
  end.

Record exn := Exn { exn_cls : exn_class; exn_msg : pystr }.

(** [str(e)] *)
Definition str_of_exn (e : exn) : pystr := exn_msg e.

(** [isinstance(e, OSError)]: [FileNotFoundError] and [IsADirectoryError]
    are subclasses of [OSError]. *)
Definition is_OSError (e : exn) : bool :=
  match exn_cls e with
  | OSError | FileNotFoundError | IsADirectoryError => true
  | _ => false
  end.

Inductive outcome (A : Type) :=
| Ok (a : A)
| Raise (e : exn).
Arguments Ok {A} a.
Arguments Raise {A} e.

(** ** Page geometry and page contents (PyMuPDF's data) *)

Definition qmax (a b : Q) : Q := if Qle_bool a b then b else a.
Definition qmin (a b : Q) : Q := if Qle_bool a b then a else b.

Module fitz.

(** [fitz.Rect]: corners [(x0, y0)] and [(x1, y1)] in points. *)
Record Rect := mkRect { x0 : Q; y0 : Q; x1 : Q; y1 : Q }.

(** [fitz.Rect(a, b, c, d)] on integer literals. *)
Definition Rect_of (a b c d : Z) : Rect :=
  mkRect (inject_Z a) (inject_Z b) (inject_Z c) (inject_Z d).

(** [r.is_empty] *)
Definition is_empty (r : Rect) : bool :=
  Qle_bool (x1 r) (x0 r) || Qle_bool (y1 r) (y0 r).

(** The largest rectangle inside both ([fz_intersect_rect]). *)
Definition intersect (a b : Rect) : Rect :=
  mkRect (qmax (x0 a) (x0 b)) (qmax (y0 a) (y0 b))
         (qmin (x1 a) (x1 b)) (qmin (y1 a) (y1 b)).

(** [inner] lies entirely within [outer]. *)
Definition within (inner outer : Rect) : bool :=
  Qle_bool (x0 outer) (x0 inner) && Qle_bool (y0 outer) (y0 inner)
  && Qle_bool (x1 inner) (x1 outer) && Qle_bool (y1 inner) (y1 outer).

(** A box of whole pixels. *)
Record IRect := mkIRect { ix0 : Z; iy0 : Z; ix1 : Z; iy1 : Z }.

(** [fitz.Matrix(sx, sy)]: a scaling. *)
Record Matrix := mkMatrix { sx : Q; sy : Q }.

Definition transform (r : Rect) (m : Matrix) : Rect :=
  mkRect (x0 r * sx m)%Q (y0 r * sy m)%Q (x1 r * sx m)%Q (y1 r * sy m)%Q.

(** [fz_round_rect]: the smallest pixel box that covers [r], with MuPDF's
    tolerance of a thousandth. *)
Definition round_rect (r : Rect) : IRect :=
  mkIRect (Qfloor (x0 r + (1 # 1000))%Q) (Qfloor (y0 r + (1 # 1000))%Q)
          (Qceiling (x1 r - (1 # 1000))%Q) (Qceiling (y1 r - (1 # 1000))%Q).

(** What a page shows.  A page of an input document holds content that is
    not analysed further ([OpaqueItem]); the composed page holds the images
    and lines [generate_sheet] puts on it, in drawing order.  A [Jpeg] is
    the compressed buffer of an image: its pixel size, its quality, and the
    rendering its pixels come from. *)
Inductive Item :=
| OpaqueItem (id : N)
| ImageItem (rect : Rect) (img : ImageSrc) (overlay : bool)
| LineItem (p1 p2 : Q * Q) (color : Z * Z * Z) (width : Q)
with ImageSrc :=
| FromStream (stream : Jpeg)
| FromFile (filename : pystr)
with Jpeg :=
| MkJpeg (width height quality : Z) (pixels : Rendering)
with Rendering :=
| Render (items : list Item) (mat : Matrix) (box : IRect).


(** A page: its rectangle, the text pdfplumber's [extract_text] finds on it
    ([None] when it finds none), and what it shows. *)
Record Page := mkPage {
  page_rect : Rect;
  page_text : option pystr;
  page_items : list Item
}.

(** A document is the sequence of its pages. *)
Definition Document : Type := list Page.

(** [fitz.Pixmap]: [n] components per pixel; [samples] has
    [width * height * n] bytes. *)
Record Pixmap := mkPixmap {
  pix_width : Z;
  pix_height : Z;
  pix_n : Z;
  pix_samples : Rendering
}.

Definition samples_len (p : Pixmap) : Z := pix_width p * pix_height p * pix_n p.

(** [page.get_pixmap(matrix=mat, clip=clip)] with the default colour space
    (RGB) and no alpha: rendering is restricted to the intersection of
    [clip] with the page's rectangle, which is scaled by [mat] and rounded
    to whole pixels; a region that misses the page has no pixels. *)
Definition get_pixmap (page : Page) (mat : Matrix) (clip : Rect) : Pixmap :=
  let box := round_rect (transform (intersect (page_rect page) clip) mat) in
  mkPixmap (Z.max 0 (ix1 box - ix0 box)) (Z.max 0 (iy1 box - iy0 box)) 3
           (Render (page_items page) mat box).

(** [fitz.Pixmap(fitz.csRGB, pix)]: the same pixels in RGB. *)
Definition Pixmap_csRGB (pix : Pixmap) : Pixmap :=
  mkPixmap (pix_width pix) (pix_height pix) 3 (pix_samples pix).

End fitz.
Import fitz.

(** Pillow's image: mode RGB, a size and the pixels. *)
Record PILImage := mkPILImage {
  img_size : Z * Z;
  img_pixels : Rendering
}.

(** ** The world: file system and console *)

(** scikit-learn's data: rows of feature weights. *)
Definition Features : Type := list (list Q).

(** The objects the classifier artifacts unpickle to. *)
Inductive PyObj :=
| ObjSVC (predict : Features -> outcome (list nat))
| ObjVectorizer (transform : list pystr -> outcome Features)
| ObjLabelEncoder (classes_ : list pystr)
| ObjOther.

(** What a path of the file system holds.  [TextFile] holds the lines a
    text-mode iteration yields; [Directory] holds what [os.listdir]
    answers, in the order the operating system gives. *)
Inductive File :=
| PdfFile (doc : Document)
| PickleFile (obj : PyObj)
| TextFile (lines : list pystr)
| ImageFile
| RawFile
| Directory (entries : list pystr).

Record World := mkWorld {
  w_files : gmap pystr File;
  w_console : list pystr
}.

Definition M (A : Type) : Type := World -> outcome A * World.

Definition ret {A} (a : A) : M A := fun w => (Ok a, w).

Definition bind {A B} (m : M A) (k : A -> M B) : M B :=
  fun w => match m w with
           | (Ok a, w') => k a w'
           | (Raise e, w') => (Raise e, w')
           end.

Definition raise {A} (e : exn) : M A := fun w => (Raise e, w).

(** [try: body  except Exception as e: handler e] *)
Definition try_except {A} (body : M A) (handler : exn -> M A) : M A :=
  fun w => match body w with
           | (Ok a, w') => (Ok a, w')
           | (Raise e, w') => handler e w'
           end.

(** [try: body  finally: cleanup]: [cleanup] runs on every way out of
    [body]; an exception of [cleanup] replaces the outcome of [body]. *)
Definition try_finally {A} (body : M A) (cleanup : M unit) : M A :=
  fun w => match body w with
           | (r, w') =>
               match cleanup w' with
               | (Ok _, w'') => (r, w'')
               | (Raise e, w'') => (Raise e, w'')
               end
           end.

(** An outcome of a library call, lifted into [M]. *)
Definition lift {A} (o : outcome A) : M A := fun w => (o, w).

Notation "x <- m ;; k" := (bind m (fun x => k))
  (at level 100, m at next level, right associativity).
Notation "m ;;; k" := (bind m (fun _ => k))
  (at level 100, right associativity).

(** [print(s)] *)
Definition print (s : pystr) : M unit :=
  fun w => (Ok tt, mkWorld (w_files w) (w_console w ++ [s])).

(** [os.path.exists(p)] *)
Definition os_path_exists (p : pystr) : M bool :=
  fun w => (Ok (bool_decide (is_Some (w_files w !! p))), w).

Definition errno_msg (what : string) (p : pystr) : pystr :=
  lit what ++ [quote] ++ p ++ [quote].

Definition no_such_file (p : pystr) : exn :=
  Exn FileNotFoundError (errno_msg "[Errno 2] No such file or directory: " p).

Definition is_a_directory (p : pystr) : exn :=
  Exn IsADirectoryError (errno_msg "[Errno 21] Is a directory: " p).

(** [os.remove(p)] *)
Definition os_remove (p : pystr) : M unit :=
  fun w => match w_files w !! p with
           | None => (Raise (no_such_file p), w)
           | Some (Directory _) => (Raise (is_a_directory p), w)
           | Some _ => (Ok tt, mkWorld (delete p (w_files w)) (w_console w))
           end.

(** [os.listdir(p)] *)
Definition os_listdir (p : pystr) : M (list pystr) :=
  fun w => match w_files w !! p with
           | Some (Directory entries) => (Ok entries, w)
           | Some _ =>
               (Raise (Exn OSError (errno_msg "[Errno 20] Not a directory: " p)), w)
           | None => (Raise (no_such_file p), w)
           end.

(** [range(start, stop, step)] for a positive [step]: the values
    [start], [start + step], ... that stay below [stop]. *)
Fixpoint range_from (fuel : nat) (cur stop step : Z) : list Z :=
  match fuel with
  | O => []
  | S fuel' =>
      if cur <? stop then cur :: range_from fuel' (cur + step) stop step else []
  end.

Definition range (start stop step : Z) : list Z :=
  range_from (Z.to_nat (stop - start)) start stop step.

(** [for x in xs: body], where the body updates a local object [s]. *)
Fixpoint for_fold {A S} (xs : list A) (s : S) (body : A -> S -> M S) : M S :=
  match xs with
  | [] => ret s
  | x :: rest => s' <- body x s ;; for_fold rest s' body
  end.

(** ** PyMuPDF and Pillow operations *)

(** [fitz.open(p)] on an existing document.  Leaving the [with] block that
    opened it closes the document, which changes nothing in the world. *)
Definition fitz_open (p : pystr) : M Document :=
  fun w => match w_files w !! p with
           | Some (PdfFile doc) => (Ok doc, w)
           | Some _ =>
               (Raise (Exn FileDataError (errno_msg "Failed to open file " p)), w)
           | None =>
               (Raise (Exn FileNotFoundError (errno_msg "no such file: " p)), w)
           end.

(** [str(i)] for a number that is not negative *)
Definition str_of_nat (i : nat) : pystr :=
  lit (NilEmpty.string_of_uint (Nat.to_uint i)).

(** [doc[i]]: the message names the page that is not there. *)
Definition doc_getitem (doc : Document) (i : nat) : M Page :=
  match doc !! i with
  | Some page => ret page
  | None =>
      raise (Exn IndexError (lit "page " ++ str_of_nat i ++ lit " not in document"))
  end.

(** [doc.new_page(width=w, height=h)]: a blank page at the end; the page
    is referred to by its number in the document. *)
Definition new_page (doc : Document) (w h : Z) : Document * nat :=
  (doc ++ [mkPage (Rect_of 0 0 w h) None []], length doc).

Definition add_item (it : Item) (page : Page) : Page :=
  mkPage (page_rect page) (page_text page) (page_items page ++ [it]).

(** [page.insert_image(rect, stream=stream, overlay=overlay)] on page [pno]
    of [doc]. *)
Definition insert_image (doc : Document) (pno : nat) (rect : Rect)
    (stream : Jpeg) (overlay : bool) : M Document :=
  if is_empty rect
  then raise (Exn ValueError (lit "rect must be finite and not empty"))
  else ret (alter (add_item (ImageItem rect (FromStream stream) overlay)) pno doc).

(** [page.insert_image(rect, filename=p)] *)
Definition insert_image_file (doc : Document) (pno : nat) (rect : Rect)
    (p : pystr) : M Document :=
  fun w =>
    if is_empty rect
    then (Raise (Exn ValueError (lit "rect must be finite and not empty")), w)
    else match w_files w !! p with
         | Some ImageFile =>
             (Ok (alter (add_item (ImageItem rect (FromFile p) true)) pno doc), w)
         | Some _ =>
             (Raise (Exn FileDataError (errno_msg "Failed to open file " p)), w)
         | None =>
             (Raise (Exn FileNotFoundError (errno_msg "no such file: " p)), w)
         end.

(** [page.draw_line(p1, p2, color=color, width=width)] *)
Definition draw_line (doc : Document) (pno : nat) (p1 p2 : Q * Q)
    (color : Z * Z * Z) (width : Q) : Document :=
  alter (add_item (LineItem p1 p2 color width)) pno doc.

(** [doc.save(p)]: a document without pages is not saved.  MuPDF removes
    what is at [p] before it writes the file, so that a file or an empty
    directory is replaced, and a directory with entries is in the way.
    A world holds paths, not the tree they form: the directory that is to
    hold [p] is taken to exist. *)
Definition doc_save (doc : Document) (p : pystr) : M unit :=
  fun w =>
    match doc with
    | [] => (Raise (Exn ValueError (lit "cannot save with zero pages")), w)
    | _ =>
        match w_files w !! p with
        | Some (Directory (_ :: _)) =>
            (Raise (Exn RuntimeError
                      (lit "cannot remove file " ++ [quote] ++ p ++ [quote]
                       ++ lit ": Directory not empty")), w)
        | _ => (Ok tt, mkWorld (<[p := PdfFile doc]> (w_files w)) (w_console w))
        end
    end.

(** [Image.frombytes("RGB", [w, h], pix.samples)]: the buffer must hold
    three bytes a pixel. *)
Definition Image_frombytes (size : Z * Z) (pix : Pixmap) : outcome PILImage :=
  if samples_len pix =? fst size * snd size * 3
  then Ok (mkPILImage size (pix_samples pix))
  else Raise (Exn ValueError (lit "not enough image data")).

(** [img.save(buffer, format="JPEG", quality=q)] followed by
    [buffer.getvalue()]: an empty image cannot be written, and JPEG holds at
    most 65500 pixels a side. *)
Definition Image_save_jpeg (img : PILImage) (q : Z) : outcome Jpeg :=
  let '(w, h) := img_size img in
  if (w =? 0) || (h =? 0)
  then Raise (Exn ValueError (lit "cannot write empty image as JPEG"))
  else if (65500 <? w) || (65500 <? h)
  then Raise (Exn OSError (lit "encoder error -2 when writing image file"))
  else Ok (MkJpeg w h q (img_pixels img)).

(** Code point of a Latin-1 letter used in the messages. *)
Definition a_acute : N := 225.
Definition e_acute : N := 233.
Definition i_acute : N := 237.
Definition o_acute : N := 243.
Definition u_acute : N := 250.

Definition path_join (a b : pystr) : pystr := a ++ lit "/" ++ b.
Infix "</>" := path_join (at level 40, left associativity).

Section Relabel.

(** ** cfg.py *)

(** The directory of the scripts ([Path(__file__).resolve().parent]). *)
Variable BASE_DIR : pystr.

Definition MODEL_DIR : pystr := lit "model".
Definition DATA_DIR : pystr := lit "data".
Definition TEMP_DIR : pystr := lit "tmp".
Definition OUT_DIR : pystr := lit "out".

Definition DATA_PATH : pystr := BASE_DIR </> DATA_DIR.
Definition MODEL_PATH : pystr := BASE_DIR </> MODEL_DIR.
Definition TEMP_PATH : pystr := BASE_DIR </> TEMP_DIR.
Definition OUT_PATH : pystr := BASE_DIR </> OUT_DIR.

(** ** print.py *)

(** [extract_high_res_image(page, rect, dpi, quality)] *)
Definition extract_high_res_image (page : Page) (rect : Rect)
    (dpi quality : Z) : M Jpeg :=
  let zoom := (inject_Z dpi / 72)%Q in
  let mat := mkMatrix zoom zoom in
  let pix := get_pixmap page mat rect in
  let pix := if 3 <? pix_n pix then Pixmap_csRGB pix else pix in
  img_pil <- lift (Image_frombytes (pix_width pix, pix_height pix) pix) ;;
  img_bytes <- lift (Image_save_jpeg img_pil quality) ;;
  ret img_bytes.

(** The default of the [quality] parameter. *)
Definition default_quality : Z := 75.

(** The promotional region and its place on the sheet. *)
Definition rect1 : Rect := Rect_of 6 10 297 410.
Definition a5_rect1 : Rect := Rect_of 0 0 297 420.

(** An entry of [envio_rects]: the region cut out of the label and its
    place on the sheet. *)
Record envio_entry := mkEntry { rect2 : Rect; a5_rect2 : Rect }.

Definition envio_rects : gmap pystr envio_entry :=
  <[ lit "MercadoLibre" :=
       mkEntry (Rect_of 30 140 297 600) (Rect_of 297 10 595 440) ]>
  (<[ lit "CorreoArg" :=
       mkEntry (Rect_of 50 57 305 490) (Rect_of 297 10 595 440) ]> ∅).

(** The output sheet. *)
Definition sheet_width : Z := 595.
Definition sheet_height : Z := 420.

Definition x_middle : Z := 297.
Definition y_start : Z := 1.
Definition y_end : Z := 419.

Definition pt (x y : Z) : Q * Q := (inject_Z x, inject_Z y).

Definition msg_no_interm (pdf1_path : pystr) : pystr :=
  lit "No se encontr" ++ [o_acute] ++ lit " el archivo " ++ pdf1_path
  ++ lit ". Asegurese haber corrido 'flyer.py' antes.".

Definition msg_no_label (label_envio : pystr) : pystr :=
  lit "No se encontr" ++ [o_acute] ++ lit " el archivo " ++ label_envio.

Definition msg_unsupported (tipo_envio : pystr) : pystr :=
  lit "Error: Tipo de env" ++ [i_acute] ++ lit "o '" ++ tipo_envio
  ++ lit "' no soportado.".

Definition msg_generated (output_file : pystr) : pystr :=
  lit "PDF generado con " ++ [e_acute] ++ lit "xito: " ++ output_file.

Definition msg_generate_error (e : exn) : pystr :=
  lit "Error al generar el PDF: " ++ str_of_exn e.

(** The body of the [try] block of [generate_sheet] (lines 111-147), from
    the empty document [doc_final] that [fitz.open()] creates. *)
Definition compose_sheet (rect2 a5_rect2 : Rect) (pdf1_path label_envio
    output_file : pystr) (doc_final : Document) : M unit :=
  stream1 <- (doc1 <- fitz_open pdf1_path ;;
              page1 <- doc_getitem doc1 0 ;;
              extract_high_res_image page1 rect1 260 default_quality) ;;
  stream2 <- (doc2 <- fitz_open label_envio ;;
              page2 <- doc_getitem doc2 0 ;;
              extract_high_res_image page2 rect2 260 default_quality) ;;
  let '(doc_final, new_page) := new_page doc_final sheet_width sheet_height in
  doc_final <- insert_image doc_final new_page a5_rect1 stream1 true ;;
  doc_final <- insert_image doc_final new_page a5_rect2 stream2 true ;;
  doc_final <- for_fold (range y_start y_end 3) doc_final
                 (fun y doc =>
                    ret (draw_line doc new_page (pt x_middle y)
                           (pt x_middle (y + 2)) (0, 0, 0) (1 # 2)%Q)) ;;
  let tijera_path := DATA_PATH </> lit "tijera.png" in
  has_tijera <- os_path_exists tijera_path ;;
  doc_final <- (if has_tijera
                then
                  let tijera_rect :=
                    Rect_of (x_middle - 6) (y_end - 18) (x_middle + 6) y_end in
                  insert_image_file doc_final new_page tijera_rect tijera_path
                else ret doc_final) ;;
  doc_save doc_final output_file ;;;
  print (msg_generated output_file).

(** [generate_sheet(tipo_envio, label_envio, output_file)].  The result is
    [Some false] for [return False] and [None] when the function runs to
    its end without a [return].  [fitz.open()] creates the empty document
    [doc_final] and cannot fail; [doc_final.close()] in the [finally] block
    changes nothing in the world. *)
Definition generate_sheet (tipo_envio label_envio output_file : pystr)
    : M (option bool) :=
  let pdf1_path := TEMP_PATH </> lit "interm.pdf" in
  has_pdf1 <- os_path_exists pdf1_path ;;
  if negb has_pdf1 then raise (Exn RuntimeError (msg_no_interm pdf1_path))
  else
  has_label <- os_path_exists label_envio ;;
  if negb has_label then raise (Exn RuntimeError (msg_no_label label_envio))
  else
  match envio_rects !! tipo_envio with
  | None =>
      print (msg_unsupported tipo_envio) ;;;
      ret (Some false)
  | Some entry =>
      let rect2 := rect2 entry in
      let a5_rect2 := a5_rect2 entry in
      let doc_final : Document := [] in
      try_finally
        (try_except
           (compose_sheet rect2 a5_rect2 pdf1_path label_envio output_file
              doc_final ;;;
            ret None)
           (fun e => raise (Exn RuntimeError (msg_generate_error e))))
        (os_remove pdf1_path)
  end.

(** ** pdfplumber, joblib and scikit-learn operations *)

(** [pdfplumber.open(p)]: the pages of the document. *)
Definition pdfplumber_open (p : pystr) : M Document :=
  fun w => match w_files w !! p with
           | Some (PdfFile doc) => (Ok doc, w)
           | Some (Directory _) => (Raise (is_a_directory p), w)
           | Some _ =>
               (Raise (Exn PDFSyntaxError (lit "No /Root object! - Is this really a PDF?")), w)
           | None => (Raise (no_such_file p), w)
           end.

(** [joblib.load(p)] *)
Definition joblib_load (p : pystr) : M PyObj :=
  fun w => match w_files w !! p with
           | Some (PickleFile obj) => (Ok obj, w)
           | Some (Directory _) => (Raise (is_a_directory p), w)
           | Some _ => (Raise (Exn UnpicklingError (lit "invalid load key")), w)
           | None => (Raise (no_such_file p), w)
           end.

Definition no_attribute (name : string) : exn :=
  Exn AttributeError (lit "object has no attribute '" ++ lit name ++ lit "'").

(** [vectorizer.transform(docs)] *)
Definition call_transform (vectorizer : PyObj) (docs : list pystr) : M Features :=
  match vectorizer with
  | ObjVectorizer transform => lift (transform docs)
  | _ => raise (no_attribute "transform")
  end.

(** [model.predict(X)] *)
Definition call_predict (model : PyObj) (X : Features) : M (list nat) :=
  match model with
  | ObjSVC predict => lift (predict X)
  | _ => raise (no_attribute "predict")
  end.

(** [label_encoder.inverse_transform(y)]: the class names at the indices
    [y]; an index that is no class is refused. *)
Definition call_inverse_transform (label_encoder : PyObj) (y : list nat)
    : M (list pystr) :=
  match label_encoder with
  | ObjLabelEncoder classes_ =>
      match mapM (fun i => classes_ !! i) y with
      | Some labels => ret labels
      | None => raise (Exn ValueError (lit "y contains previously unseen labels"))
      end
  | _ => raise (no_attribute "inverse_transform")
  end.

(** [xs[0]] *)
Definition getitem0 {A} (xs : list A) : M A :=
  match xs with
  | x :: _ => ret x
  | [] => raise (Exn IndexError (lit "index 0 is out of bounds"))
  end.

(** [a, b = xs] *)
Definition unpack2 {A} (xs : list A) : M (A * A) :=
  match xs with
  | [a; b] => ret (a, b)
  | [] | [_] => raise (Exn ValueError (lit "not enough values to unpack (expected 2)"))
  | _ => raise (Exn ValueError (lit "too many values to unpack (expected 2)"))
  end.

(** [filter(None, xs)] on what [extract_text] returns: the non-empty
    strings. *)
Fixpoint filter_none (xs : list (option pystr)) : list pystr :=
  match xs with
  | [] => []
  | Some s :: rest => if truthy s then s :: filter_none rest else filter_none rest
  | None :: rest => filter_none rest
  end.

(** [x or ""] *)
Definition or_empty (x : option pystr) : pystr :=
  match x with
  | Some s => s
  | None => []
  end.

(** [try: body  except (FileNotFoundError, OSError) as e: handler e] *)
Definition try_except_OSError {A} (body : M A) (handler : exn -> M A) : M A :=
  fun w => match body w with
           | (Ok a, w') => (Ok a, w')
           | (Raise e, w') => if is_OSError e then handler e w' else (Raise e, w')
           end.

(** ** generate.py *)

Definition msg_load (e : exn) : pystr :=
  lit "No se pudo cargar el modelo o sus componentes: " ++ str_of_exn e.

Definition msg_no_text (pdf_path : pystr) : pystr :=
  lit "El archivo " ++ pdf_path ++ lit " no contiene texto v" ++ [a_acute]
  ++ lit "lido.".

Definition msg_prediction (pdf_path : pystr) (e : exn) : pystr :=
  lit "Error de predicci" ++ [o_acute] ++ lit "n con el archivo " ++ pdf_path
  ++ lit ": " ++ str_of_exn e.

(** The inner [try] block of [predict_pdf] (lines 57-62): the three
    artifacts of the classifier. *)
Definition load_artifacts : M (PyObj * PyObj * PyObj) :=
  try_except_OSError
    (model <- joblib_load (MODEL_PATH </> lit "modelo_svm.pkl") ;;
     vectorizer <- joblib_load (MODEL_PATH </> lit "vectorizer.pkl") ;;
     label_encoder <- joblib_load (MODEL_PATH </> lit "label_encoder.pkl") ;;
     ret (model, vectorizer, label_encoder))
    (fun e => raise (Exn RuntimeError (msg_load e))).

(** [predict_pdf(pdf_path)] *)
Definition predict_pdf (pdf_path : pystr) : M pystr :=
  try_except
    (artifacts <- load_artifacts ;;
     let '(model, vectorizer, label_encoder) := artifacts in
     text <- (pdf <- pdfplumber_open pdf_path ;;
              ret (join (lit " ") (filter_none (List.map page_text pdf)))) ;;
     let clean_text := strip text in
     if negb (truthy clean_text)
     then raise (Exn RuntimeError (msg_no_text pdf_path))
     else
       X_new <- call_transform vectorizer [clean_text] ;;
       pred <- call_predict model X_new ;;
       labels <- call_inverse_transform label_encoder pred ;;
       getitem0 labels)
    (fun e => raise (Exn RuntimeError (msg_prediction pdf_path e))).

Definition msg_no_input : pystr :=
  lit "No se encontr" ++ [o_acute] ++ lit " ning" ++ [u_acute]
  ++ lit "n archivo con el formato esperado.".

(** The test of the list comprehension of [generar_etiqueta]:
    [f.endswith(".pdf") and "-" in f]. *)
Definition is_label_name (f : pystr) : bool :=
  endswith f (lit ".pdf") && contains hyphen f.

(** What the first statements of [generar_etiqueta] compute. *)
Record discovery := mkDiscovery {
  file : pystr;
  medio_venta : pystr;
  num_orden : pystr;
  pdf_envio_path : pystr;
  pdf_out_path : pystr
}.

(** Lines 115-124 of [generar_etiqueta]: the statements before the call of
    [predict_pdf].  [generar_etiqueta] continues with their results and
    raises whenever they raise. *)
Definition generar_etiqueta_discover : M discovery :=
  entries <- os_listdir BASE_DIR ;;
  let pdf_files := List.filter is_label_name entries in
  if negb (match pdf_files with [] => false | _ => true end)
  then raise (Exn RuntimeError msg_no_input)
  else
    file <- getitem0 pdf_files ;;
    stem <- getitem0 (rsplit1 dot file) ;;
    parts <- unpack2 (split1 hyphen stem) ;;
    let '(medio_venta, num_orden) := parts in
    let pdf_envio_path := BASE_DIR </> file in
    let pdf_out_path := OUT_PATH </> (medio_venta ++ num_orden ++ lit ".pdf") in
    ret (mkDiscovery file medio_venta num_orden pdf_envio_path pdf_out_path).

(** ** train.py *)

Definition DATA_DIRS : list (pystr * pystr) :=
  [ (lit "MercadoLibre", DATA_PATH </> lit "labelsMl");
    (lit "CorreoArg", DATA_PATH </> lit "labelsCorreoArg") ].

Definition SWORDS_FILE : pystr := MODEL_PATH </> lit "custom_stopwords.txt".

(** [extract_text_from_pdf(pdf_path)] *)
Definition extract_text_from_pdf (pdf_path : pystr) : M pystr :=
  text <- (pdf <- pdfplumber_open pdf_path ;;
           ret (join (lit " ")
                  (List.map (fun page => or_empty (page_text page)) pdf))) ;;
  ret (strip text).

(** The body of the inner loop of [load_data] for one directory entry:
    the lists [texts] and [labels] grow together. *)
Definition load_data_file (label folder file : pystr)
    (acc : list pystr * list pystr) : M (list pystr * list pystr) :=
  let '(texts, labels) := acc in
  if endswith file (lit ".pdf")
  then
    let pdf_path := folder </> file in
    text <- extract_text_from_pdf pdf_path ;;
    if truthy text
    then ret (texts ++ [text], labels ++ [label])
    else ret (texts, labels)
  else ret (texts, labels).

(** [load_data()] *)
Definition load_data : M (list pystr * list pystr) :=
  for_fold DATA_DIRS ([], [])
    (fun '(label, folder) acc =>
       entries <- os_listdir folder ;;
       for_fold entries acc (load_data_file label folder)).

(** [open(p, "r", encoding="utf-8")], iterated line by line. *)
Definition open_text (p : pystr) : M (list pystr) :=
  fun w => match w_files w !! p with
           | Some (TextFile lines) => (Ok lines, w)
           | Some (Directory _) => (Raise (is_a_directory p), w)
           | Some _ =>
               (Raise (Exn UnicodeDecodeError (lit "'utf-8' codec can't decode byte")), w)
           | None => (Raise (no_such_file p), w)
           end.

(** [load_stopwords(file_path)] *)
Definition load_stopwords (file_path : pystr) : M (list pystr) :=
  f <- open_text file_path ;;
  let stopwords :=
    List.map strip (List.filter (fun line => truthy (strip line)) f) in
  ret stopwords.

(** scikit-learn's [TfidfVectorizer], as far as its vocabulary goes: the
    two parameters [main] sets and, once fitted, the terms it keeps. *)
Record TfidfVectorizer := mkTfidf {
  stop_words : list pystr;
  max_features : option nat;
  vocabulary_ : option (list pystr)
}.

(** The default analyzer of the vectorizer (lower-casing, then the tokens
    of two or more word characters). *)
Variable analyzer : pystr -> list pystr.

Definition count_term (t : pystr) (tokens : list pystr) : nat :=
  length (List.filter (fun u => bool_decide (u = t)) tokens).

Fixpoint insert_by_count (tf : pystr -> nat) (t : pystr) (ranked : list pystr)
    : list pystr :=
  match ranked with
  | [] => [t]
  | u :: rest =>
      if (tf u <=? tf t)%nat then t :: ranked
      else u :: insert_by_count tf t rest
  end.

(** The terms by falling number of occurrences. *)
Definition rank_terms (tf : pystr -> nat) (terms : list pystr) : list pystr :=
  foldr (insert_by_count tf) [] terms.

(** [vectorizer.fit_transform(raw_documents)], as far as the vocabulary
    goes: the terms that are no stop words; with [max_features] the most
    frequent ones only; no term at all is an error. *)
Definition fit_vocabulary (v : TfidfVectorizer) (raw_documents : list pystr)
    : outcome TfidfVectorizer :=
  let tokens :=
    concat (List.map
              (fun d => List.filter
                          (fun t => negb (bool_decide (t ∈ stop_words v)))
                          (analyzer d))
              raw_documents) in
  match remove_dups tokens with
  | [] =>
      Raise (Exn ValueError
               (lit "empty vocabulary; perhaps the documents only contain stop words"))
  | terms =>
      let kept :=
        match max_features v with
        | Some limit => take limit (rank_terms (fun t => count_term t tokens) terms)
        | None => terms
        end in
      Ok (mkTfidf (stop_words v) (max_features v) (Some kept))
  end.

(** Lines 98-108 of [main], without the label encoding: the corpus, the
    stop words and the fitted vectorizer.  The training of the classifier
    that follows is numeric and outside the embedding. *)
Definition main_vectorizer : M (TfidfVectorizer * (list pystr * list pystr)) :=
  data <- load_data ;;
  let '(texts, labels) := data in
  stopwords <- load_stopwords SWORDS_FILE ;;
  let vectorizer := mkTfidf stopwords (Some 5000%nat) None in
  vectorizer <- lift (fit_vocabulary vectorizer texts) ;;
  ret (vectorizer, (texts, labels)).

End Relabel.

(** ** Observations on the composed sheet *)

(** The rectangle of the output sheet. *)
Definition sheet_rect : Rect := Rect_of 0 0 sheet_width sheet_height.

Definition is_line (it : Item) : bool :=
  match it with
  | LineItem _ _ _ _ => true
  | _ => false
  end.

(** The line segments drawn on a page. *)
Definition segments (page : Page) : list Item :=
  List.filter is_line (page_items page).

(** The segment of the cut guide that starts at height [y]. *)
Definition cut_segment (y : Z) : Item :=
  LineItem (pt x_middle y) (pt x_middle (y + 2)) (0, 0, 0) (1 # 2)%Q.

(** The number of line segments on the one-page document at [out], if
    there is one. *)
Definition sheet_segments (w : World) (out : pystr) : option nat :=
  match w_files w !! out with
  | Some (PdfFile [page]) => Some (length (segments page))
  | _ => None
  end.

(** The path of the promotional intermediate document. *)
Definition interm_pdf (BASE_DIR : pystr) : pystr :=
  TEMP_PATH BASE_DIR </> lit "interm.pdf".

(** The text [predict_pdf] classifies, before trimming. *)
Definition joined_text (doc : Document) : pystr :=
  join (lit " ") (filter_none (List.map page_text doc)).

(** The text [extract_text_from_pdf] returns, before trimming. *)
Definition joined_pages (doc : Document) : pystr :=
  join (lit " ") (List.map (fun page => or_empty (page_text page)) doc).

(** Texts and labels go together, and no text is empty. *)
Definition corpus_ok (acc : list pystr * list pystr) : Prop :=
  Forall (fun text => text <> []) (fst acc) /\ length (fst acc) = length (snd acc).

(** ** Sample worlds *)

Module Sample.

Definition base : pystr := lit "/srv/relabel".

Definition a4 : Rect := Rect_of 0 0 595 842.

Definition promo_page : Page := mkPage (Rect_of 0 0 303 420) None [OpaqueItem 1].

(** A page smaller than the region cut out of a MercadoLibre label. *)
Definition half_page : Page := mkPage (Rect_of 0 0 297 420) None [OpaqueItem 6].

Definition label_page : Page :=
  mkPage a4 (Some (lit "Mercado Envios  Flex")) [OpaqueItem 2].

(** A scanned label: a page without text and a page of blanks. *)
Definition scan_doc : Document :=
  [ mkPage a4 None [OpaqueItem 3]; mkPage a4 (Some (lit "  ")) [OpaqueItem 4] ].

Definition label_path : pystr := base </> lit "meli-123456.pdf".
Definition out_path : pystr := OUT_PATH base </> lit "meli123456.pdf".
Definition scan_path : pystr := base </> lit "scan-1.pdf".

(** The promotional intermediate and a label are in place. *)
Definition ready : World :=
  mkWorld (<[ interm_pdf base := PdfFile [promo_page] ]>
           (<[ label_path := PdfFile [label_page] ]> ∅)) [].

(** The promotional intermediate has no page. *)
Definition empty_promo : World :=
  mkWorld (<[ interm_pdf base := PdfFile [] ]>
           (<[ label_path := PdfFile [label_page] ]> ∅)) [].

(** A scanned label and no classifier artifact. *)
Definition scan_no_model : World :=
  mkWorld (<[ scan_path := PdfFile scan_doc ]> ∅) [].

Definition svc : PyObj := ObjSVC (fun X => Ok (List.map (fun _ => 0%nat) X)).
Definition vec : PyObj :=
  ObjVectorizer (fun docs => Ok (List.map (fun _ => [1%Q]) docs)).
Definition enc : PyObj := ObjLabelEncoder [lit "CorreoArg"; lit "MercadoLibre"].

(** A scanned label and the three classifier artifacts. *)
Definition scan_with_model : World :=
  mkWorld (<[ scan_path := PdfFile scan_doc ]>
           (<[ MODEL_PATH base </> lit "modelo_svm.pkl" := PickleFile svc ]>
           (<[ MODEL_PATH base </> lit "vectorizer.pkl" := PickleFile vec ]>
           (<[ MODEL_PATH base </> lit "label_encoder.pkl" := PickleFile enc ]> ∅))))
          [].

(** The base directory as [os.listdir] shows it. *)
Definition listing : list pystr :=
  [ lit "cfg.py"; lit "notas.pdf"; lit "meli-123456.pdf"; lit "correo-987654.pdf" ].

Definition with_labels : World :=
  mkWorld (<[ base := Directory listing ]> ∅) [].

(** A base directory without a label to work on. *)
Definition without_labels : World :=
  mkWorld (<[ base := Directory [lit "cfg.py"; lit "notas.pdf"] ]> ∅) [].

(** A training set: one label with text and one scan for the first
    category, one label with text for the second, and two stop words. *)
Definition training : World :=
  mkWorld
    (<[ DATA_PATH base </> lit "labelsMl" := Directory [lit "a.pdf"; lit "b.pdf"; lit "leer.txt"] ]>
    (<[ DATA_PATH base </> lit "labelsMl" </> lit "a.pdf" := PdfFile [label_page] ]>
    (<[ DATA_PATH base </> lit "labelsMl" </> lit "b.pdf" := PdfFile scan_doc ]>
    (<[ DATA_PATH base </> lit "labelsCorreoArg" := Directory [lit "c.pdf"] ]>
    (<[ DATA_PATH base </> lit "labelsCorreoArg" </> lit "c.pdf" :=
          PdfFile [mkPage a4 (Some (lit "Correo Argentino")) [OpaqueItem 5]] ]>
    (<[ SWORDS_FILE base := TextFile [lit "Envios "; lit " "; lit "de"] ]> ∅))))))
    [].

(** A stand-in for the analyzer: the words between blanks. *)
Fixpoint words_from (cur : pystr) (s : pystr) : list pystr :=
  match s with
  | [] => match cur with [] => [] | _ => [cur] end
  | c :: r =>
      if isspace c
      then match cur with [] => words_from [] r | _ => cur :: words_from [] r end
      else words_from (cur ++ [c]) r
  end.

Definition words (s : pystr) : list pystr := words_from [] s.

End Sample.

(** * The rest of the pipeline *)

Section Pipeline.

Variable BASE_DIR : pystr.

(** ** cfg.py: the address of the shop *)

Definition URL_WEB : pystr := lit "https://www.3dcp.com.ar/eshop/catalogue/".

(** ** flyer.py *)

(** [qrcode.make(data)]: the library makes the image or refuses the data
    (too long for a QR code). *)
Variable qrcode_make : pystr -> outcome unit.

(** [qr.save(p)]: the image is written as a file of its own. *)
Definition Image_save_png (p : pystr) : M unit :=
  fun w => match w_files w !! p with
           | Some (Directory _) => (Raise (is_a_directory p), w)
           | _ => (Ok tt, mkWorld (<[ p := ImageFile ]> (w_files w)) (w_console w))
           end.

Definition msg_no_flyer (pdf_path : pystr) : pystr :=
  lit "Error: El archivo " ++ pdf_path ++ lit " no existe.".

Definition msg_flyer_error (e : exn) : pystr :=
  lit "Error procesando el PDF: " ++ str_of_exn e.

(** The address the QR code points to. *)
Definition qr_url (medio_venta nro_orden url : pystr) : pystr :=
  url ++ lit "?origen=" ++ medio_venta ++ lit "&id=" ++ nro_orden.

(** Where the QR code goes on the flyer. *)
Definition qr_rect : Rect := Rect_of 190 295 259 364.

(** [qr_to_pdf(medio_venta, nro_orden, url)].  The result is [None] for
    [return None] and [Some p] for [return output_pdf].  Inside the [try]
    statement, [Some r] stands for a [return r] and [None] for running to
    the end of the block. *)
Definition qr_to_pdf (medio_venta nro_orden url : pystr) : M (option pystr) :=
  qr <- lift (qrcode_make (qr_url medio_venta nro_orden url)) ;;
  let qr_path := TEMP_PATH BASE_DIR </> lit "interm.png" in
  Image_save_png qr_path ;;;
  let pdf_path := DATA_PATH BASE_DIR </> lit "flyer.pdf" in
  has_pdf <- os_path_exists pdf_path ;;
  if negb has_pdf
  then
    print (msg_no_flyer pdf_path) ;;;
    ret None
  else
    let output_pdf := TEMP_PATH BASE_DIR </> lit "interm.pdf" in
    returned <-
      try_finally
        (try_except
           (doc <- fitz_open pdf_path ;;
            page <- doc_getitem doc 0 ;;
            let rect := qr_rect in
            doc <- insert_image_file doc 0 rect qr_path ;;
            doc_save doc output_pdf ;;;
            ret None)
           (fun e =>
              print (msg_flyer_error e) ;;;
              ret (Some None)))
        (has_qr <- os_path_exists qr_path ;;
         if has_qr then os_remove qr_path else ret tt) ;;
    match returned with
    | Some r => ret r
    | None => ret (Some output_pdf)
    end.

(** ** generate.py: the whole of [generar_etiqueta] *)

(** What [subprocess.run(["lpstat", "-d"], capture_output=True, text=True,
    check=True)] comes to: the output of the command, or an exception,
    of which only the text is used. *)
Inductive lpstat_result :=
| LpstatOut (stdout : pystr)
| LpstatError (msg : pystr).

(** What [subprocess.run(["lp", p], check=True)] comes to: the command
    ran, or a [subprocess.SubprocessError], or an exception of another
    class. *)
Inductive lp_result :=
| LpDone
| LpSubprocessError (msg : pystr)
| LpOtherError (e : exn).

(** The two commands and [shutil.move] belong to the system the program
    runs on. *)
Variable run_lpstat : World -> lpstat_result * World.
Variable run_lp : pystr -> World -> lp_result * World.
Variable shutil_move : pystr -> pystr -> M unit.

Definition msg_lpstat_error (msg : pystr) : pystr :=
  lit "Error al imprimir: " ++ msg.

Definition msg_lp_error (pdf_out_path msg : pystr) : pystr :=
  lit "Error al imprimir " ++ pdf_out_path ++ lit ": " ++ msg.

Definition msg_no_printer (pdf_out_path : pystr) : pystr :=
  lit "No hay impresora por defecto. Imprima manualmente " ++ pdf_out_path
  ++ lit ".".

Definition no_default_printer : pystr := lit "no system default destination".

(** Lines 137-153 of [generar_etiqueta]: the attempt to print.
    [default_printer] is [None] after an exception of [lpstat]. *)
Definition imprimir (pdf_out_path : pystr) : M unit :=
  default_printer <-
    (fun w => match run_lpstat w with
              | (LpstatOut stdout, w') => (Ok (Some (strip stdout)), w')
              | (LpstatError msg, w') =>
                  (print (msg_lpstat_error msg) ;;; ret None) w'
              end) ;;
  if negb (bool_decide (default_printer = Some no_default_printer))
  then
    fun w => match run_lp pdf_out_path w with
             | (LpDone, w') => (Ok tt, w')
             | (LpSubprocessError msg, w') =>
                 print (msg_lp_error pdf_out_path msg) w'
             | (LpOtherError e, w') => (Raise e, w')
             end
  else print (msg_no_printer pdf_out_path).

(** [generar_etiqueta()] *)
Definition generar_etiqueta : M unit :=
  d <- generar_etiqueta_discover BASE_DIR ;;
  tipo_envio <- predict_pdf BASE_DIR (pdf_envio_path d) ;;
  qr_to_pdf (medio_venta d) (num_orden d) URL_WEB ;;;
  generate_sheet BASE_DIR tipo_envio (pdf_envio_path d) (pdf_out_path d) ;;;
  imprimir (pdf_out_path d) ;;;
  shutil_move (pdf_envio_path d) OUT_DIR.

End Pipeline.

(** The path of the QR image. *)
Definition interm_png (BASE_DIR : pystr) : pystr :=
  TEMP_PATH BASE_DIR </> lit "interm.png".

(** The path of the flyer. *)
Definition flyer_pdf (BASE_DIR : pystr) : pystr :=
  DATA_PATH BASE_DIR </> lit "flyer.pdf".

(** The page of the flyer with the QR code on it. *)
Definition with_qr (BASE_DIR : pystr) (page : Page) : Page :=
  add_item (ImageItem qr_rect (FromFile (interm_png BASE_DIR)) true) page.

(** ** Further observations *)

(** The scissors: where they are kept, where they go on the sheet, and
    what they add to the page when they are there. *)
Definition tijera_png (BASE_DIR : pystr) : pystr :=
  DATA_PATH BASE_DIR </> lit "tijera.png".

Definition tijera_rect : Rect :=
  Rect_of (x_middle - 6) (y_end - 18) (x_middle + 6) y_end.

Definition scissors (BASE_DIR : pystr) (w : World) : list Item :=
  if bool_decide (is_Some (w_files w !! tijera_png BASE_DIR))
  then [ImageItem tijera_rect (FromFile (tijera_png BASE_DIR)) true]
  else [].

(** The page of the composed sheet: the promotional image, the label, the
    cut guide and the scissors, in the order they are drawn. *)
Definition composed_page (BASE_DIR : pystr) (w : World) (s1 s2 : Jpeg)
    (a5r2 : Rect) : Page :=
  mkPage sheet_rect None
    ([ImageItem a5_rect1 (FromStream s1) true; ImageItem a5r2 (FromStream s2) true]
     ++ List.map cut_segment (range y_start y_end 3) ++ scissors BASE_DIR w).

(** The first page of the document at a path, if there is one. *)
Definition first_page (w : World) (p : pystr) : option Page :=
  match w_files w !! p with
  | Some (PdfFile (page :: _)) => Some page
  | _ => None
  end.

(** The trimmed text of the document at a path, if there is one. *)
Definition document_text (w : World) (pdf_path : pystr) : option pystr :=
  match w_files w !! pdf_path with
  | Some (PdfFile doc) => Some (strip (joined_pages doc))
  | _ => None
  end.

(** The texts of the entries of a folder that end in [.pdf] and have text,
    in the order of the listing. *)
Definition folder_texts (w : World) (folder : pystr) (entries : list pystr)
    : list pystr :=
  flat_map
    (fun file =>
       if endswith file (lit ".pdf")
       then match document_text w (folder </> file) with
            | Some (c :: text) => [c :: text]
            | _ => []
            end
       else [])
    entries.

(** A string that begins and ends with characters that are no white
    space. *)
Definition trimmed (s : pystr) : Prop :=
  (exists c, head s = Some c /\ isspace c = false)
  /\ (exists d, last s = Some d /\ isspace d = false).

(** A string of white space only. *)
Definition blank (s : pystr) : Prop := Forall (fun c => isspace c = true) s.

(** The [try] statement of [qr_to_pdf], with its [finally] block. *)
Definition stamp_flyer (BASE_DIR : pystr) : M (option (option pystr)) :=
  try_finally
    (try_except
       (doc <- fitz_open (flyer_pdf BASE_DIR) ;;
        page <- doc_getitem doc 0 ;;
        doc <- insert_image_file doc 0 qr_rect (interm_png BASE_DIR) ;;
        doc_save doc (interm_pdf BASE_DIR) ;;;
        ret None)
       (fun e => print (msg_flyer_error e) ;;; ret (Some None)))
    (has_qr <- os_path_exists (interm_png BASE_DIR) ;;
     if has_qr then os_remove (interm_png BASE_DIR) else ret tt).

(** What [predict_pdf] does once the artifacts are loaded. *)
Definition classify (pdf_path : pystr) (artifacts : PyObj * PyObj * PyObj)
    : M pystr :=
  let '(model, vectorizer, label_encoder) := artifacts in
  text <- (pdf <- pdfplumber_open pdf_path ;;
           ret (join (lit " ") (filter_none (List.map page_text pdf)))) ;;
  let clean_text := strip text in
  if negb (truthy clean_text)
  then raise (Exn RuntimeError (msg_no_text pdf_path))
  else
    X_new <- call_transform vectorizer [clean_text] ;;
    pred <- call_predict model X_new ;;
    labels <- call_inverse_transform label_encoder pred ;;
    getitem0 labels.

(** ** Sample runs of the pipeline *)

Module Scenario.

Import Sample.

(** The library makes every QR code; there is no default printer; [lp]
    prints; the move is not looked at. *)
Definition mk (data : pystr) : outcome unit := Ok tt.

Definition lpstat (w : World) : lpstat_result * World :=
  (LpstatOut (lit "no system default destination" ++ [10%N]), w).

Definition lp (p : pystr) (w : World) : lp_result * World := (LpDone, w).

Definition move (src dst : pystr) : M unit := ret tt.

Definition label_files (encoder : PyObj) : gmap pystr File :=
  <[ base := Directory [lit "cfg.py"; lit "meli-123456.pdf"] ]>
  (<[ label_path := PdfFile [label_page] ]>
  (<[ MODEL_PATH base </> lit "modelo_svm.pkl" := PickleFile svc ]>
  (<[ MODEL_PATH base </> lit "vectorizer.pkl" := PickleFile vec ]>
  (<[ MODEL_PATH base </> lit "label_encoder.pkl" := PickleFile encoder ]> ∅)))).

(** A label, the classifier and the flyer. *)
Definition shop : World :=
  mkWorld (<[ flyer_pdf base := PdfFile [promo_page] ]> (label_files enc)) [].

(** The same without the flyer. *)
Definition no_flyer : World := mkWorld (label_files enc) [].

(** The flyer has no page. *)
Definition empty_flyer : World :=
  mkWorld (<[ flyer_pdf base := PdfFile [] ]> (label_files enc)) [].

(** The classifier knows a carrier the registry does not. *)
Definition new_carrier : World :=
  mkWorld (<[ flyer_pdf base := PdfFile [promo_page] ]>
             (label_files (ObjLabelEncoder [lit "Andreani"]))) [].

(** A label in the base directory and nothing else. *)
Definition unclassified : World :=
  mkWorld (<[ base := Directory [lit "meli-123456.pdf"] ]>
           (<[ label_path := PdfFile [label_page] ]> ∅)) [].

(** The promotional intermediate is a directory. *)
Definition interm_is_directory : World :=
  mkWorld (<[ interm_pdf base := Directory [] ]>
           (<[ label_path := PdfFile [label_page] ]> ∅)) [].

(** Training folders where no document has text. *)
Definition scans_only : World :=
  mkWorld
    (<[ DATA_PATH base </> lit "labelsMl" := Directory [lit "b.pdf"] ]>
    (<[ DATA_PATH base </> lit "labelsMl" </> lit "b.pdf" := PdfFile scan_doc ]>
    (<[ DATA_PATH base </> lit "labelsCorreoArg" := Directory [] ]>
    (<[ SWORDS_FILE base := TextFile [lit "de"] ]> ∅))))
    [].

End Scenario.

(** * Properties *)

(** ** The effect monad *)

Lemma bind_Ok {A B} (m : M A) (k : A -> M B) (w w' : World) (b : B) :
  bind m k w = (Ok b, w') ->
  exists a w1, m w = (Ok a, w1) /\ k a w1 = (Ok b, w').
Proof.
  unfold bind. destruct (m w) as [[a | e] w1]; [eauto | discriminate].
Qed.

Lemma bind_inv {A B} (m : M A) (k : A -> M B) (w w' : World) (r : outcome B) :
  bind m k w = (r, w') ->
  (exists e, m w = (Raise e, w') /\ r = Raise e)
  \/ (exists a w1, m w = (Ok a, w1) /\ k a w1 = (r, w')).
Proof.
  unfold bind. destruct (m w) as [[a | e] w1]; [eauto |].
  intros [= <- <-]. eauto.
Qed.

(** A loop whose body leaves the world alone leaves the world alone. *)
Lemma for_fold_world {A S} (body : A -> S -> M S) (xs : list A) (s : S) (w : World) :
  (forall x s w, snd (body x s w) = w) ->
  snd (for_fold xs s body w) = w.
Proof.
  intros Hbody. revert s. induction xs as [| x xs IH]; intros s; simpl; [done |].
  unfold bind. specialize (Hbody x s w).
  destruct (body x s w) as [[s' | e] w1]; simpl in Hbody; subst w1; [apply IH | done].
Qed.

(** What every turn of a loop keeps holds when the loop is over. *)
Lemma for_fold_invariant {A S} (P : S -> Prop) (body : A -> S -> M S)
    (xs : list A) (s s' : S) (w w' : World) :
  (forall x s w s' w', P s -> body x s w = (Ok s', w') -> P s') ->
  P s -> for_fold xs s body w = (Ok s', w') -> P s'.
Proof.
  intros Hbody. revert s w. induction xs as [| x xs IH]; intros s w Hs; simpl.
  - by intros [= <- _].
  - intros H. apply bind_Ok in H as (s1 & w1 & H1 & H). eauto.
Qed.

(** ** Strings *)

Lemma cut_Some (sep : N) (s a b : pystr) :
  cut sep s = Some (a, b) -> s = a ++ sep :: b /\ sep ∉ a.
Proof.
  revert a b. induction s as [| c r IH]; intros a b; simpl; [discriminate |].
  destruct (N.eqb_spec c sep) as [-> | Hne].
  - intros [= <- <-]. split; [done |]. apply not_elem_of_nil.
  - destruct (cut sep r) as [[a' b'] |]; [| discriminate].
    intros [= <- <-]. destruct (IH a' b' eq_refl) as [-> Hn].
    split; [done |]. rewrite elem_of_cons. intros [? | ?]; [congruence | done].
Qed.

Lemma cut_app (sep : N) (a b : pystr) :
  sep ∉ a -> cut sep (a ++ sep :: b) = Some (a, b).
Proof.
  induction a as [| c a IH]; simpl; intros Hn.
  - by rewrite N.eqb_refl.
  - apply not_elem_of_cons in Hn as [Hc Ha].
    destruct (N.eqb_spec c sep) as [-> | _]; [done |]. by rewrite IH.
Qed.

Lemma cut_elem (sep : N) (s : pystr) :
  sep ∈ s -> exists a b, cut sep s = Some (a, b).
Proof.
  induction s as [| c r IH]; [by intros ?%elem_of_nil |].
  intros H. simpl. destruct (N.eqb_spec c sep) as [-> | Hne]; [eauto |].
  apply elem_of_cons in H as [-> | H]; [done |].
  destruct (IH H) as (a & b & ->). eauto.
Qed.

Ltac not_in_literal H :=
  vm_compute in H;
  repeat (apply elem_of_cons in H as [? | H]; [done |]);
  by apply elem_of_nil in H.

(** Splitting off the extension of a name that ends in [.pdf]. *)
Lemma rsplit1_pdf (stem : pystr) :
  rsplit1 dot (stem ++ lit ".pdf") = [stem; lit "pdf"].
Proof.
  unfold rsplit1. rewrite rev_app_distr.
  change (rev (lit ".pdf")) with (lit "fdp" ++ dot :: []).
  rewrite <- app_assoc. simpl ((dot :: []) ++ _).
  rewrite cut_app; [by rewrite rev_involutive |].
  intros H. not_in_literal H.
Qed.

(** A name the list comprehension keeps has a hyphen before its
    extension. *)
Lemma is_label_name_true (f : pystr) :
  is_label_name f = true ->
  exists medio num, f = medio ++ [hyphen] ++ num ++ lit ".pdf"
                    /\ (hyphen ∉ medio)
                    /\ cut hyphen (medio ++ hyphen :: num) = Some (medio, num).
Proof.
  unfold is_label_name, endswith, contains. intros H.
  apply andb_true_iff in H as [Hs Hh].
  apply bool_decide_eq_true in Hs as [stem ->].
  apply bool_decide_eq_true in Hh.
  apply elem_of_app in Hh as [Hh | Hh]; [| exfalso; not_in_literal Hh].
  destruct (cut_elem _ _ Hh) as (a & b & Hc).
  destruct (cut_Some _ _ _ _ Hc) as [-> Hn].
  exists a, b. split; [by rewrite <- app_assoc |]. split; [done |].
  by apply cut_app.
Qed.

Lemma filter_none_match {A} (P : A -> bool) (l : list A) :
  Forall (fun x => P x = false) l -> List.filter P l = [].
Proof.
  induction 1 as [| x l Hx _ IH]; [done |]. simpl. by rewrite Hx.
Qed.

(** ** The registry and the geometry *)

Lemma envio_rects_lookup (tipo : pystr) (entry : envio_entry) :
  envio_rects !! tipo = Some entry ->
  (tipo = lit "MercadoLibre"
   /\ entry = mkEntry (Rect_of 30 140 297 600) (Rect_of 297 10 595 440))
  \/ (tipo = lit "CorreoArg"
      /\ entry = mkEntry (Rect_of 50 57 305 490) (Rect_of 297 10 595 440)).
Proof.
  unfold envio_rects. intros H.
  apply lookup_insert_Some in H as [[<- <-] | [_ H]]; [left; done |].
  apply lookup_insert_Some in H as [[<- <-] | [_ H]]; [right; done |].
  by rewrite lookup_empty in H.
Qed.

Lemma qmax_idem (a b : Q) : qmax a (qmax a b) = qmax a b.
Proof.
  unfold qmax. destruct (Qle_bool a b) eqn:E; [by rewrite E |].
  by destruct (Qle_bool a a).
Qed.

Lemma qmin_idem (a b : Q) : qmin a (qmin a b) = qmin a b.
Proof.
  unfold qmin. destruct (Qle_bool a b) eqn:E; [| by rewrite E].
  by destruct (Qle_bool a a).
Qed.

Lemma intersect_idem (a b : Rect) : intersect a (intersect a b) = intersect a b.
Proof.
  unfold intersect; simpl. by rewrite !qmax_idem, !qmin_idem.
Qed.

Lemma get_pixmap_clamped (page : Page) (mat : Matrix) (clip : Rect) :
  get_pixmap page mat (intersect (page_rect page) clip) = get_pixmap page mat clip.
Proof. unfold get_pixmap. by rewrite intersect_idem. Qed.

(** ** Reading leaves the world as it is *)

Lemma extract_world (page : Page) (rect : Rect) (dpi quality : Z) (w : World) :
  snd (extract_high_res_image page rect dpi quality w) = w.
Proof.
  unfold extract_high_res_image, bind, lift, ret.
  destruct (Image_frombytes _ _); simpl; [| done].
  by destruct (Image_save_jpeg _ _).
Qed.

Lemma fitz_open_world (p : pystr) (w : World) : snd (fitz_open p w) = w.
Proof. unfold fitz_open. by repeat case_match. Qed.

Lemma joblib_load_world (p : pystr) (w : World) : snd (joblib_load p w) = w.
Proof. unfold joblib_load. by repeat case_match. Qed.

Lemma pdfplumber_open_world (p : pystr) (w : World) : snd (pdfplumber_open p w) = w.
Proof. unfold pdfplumber_open. by repeat case_match. Qed.

(** Opening a document, taking its first page and extracting a region. *)
Lemma extract_first_page_world (p : pystr) (rect : Rect) (dpi quality : Z)
    (w : World) :
  snd ((doc <- fitz_open p ;;
        page <- doc_getitem doc 0 ;;
        extract_high_res_image page rect dpi quality) w) = w.
Proof.
  unfold bind at 1. pose proof (fitz_open_world p w) as Ho.
  destruct (fitz_open p w) as [[doc | e] w1]; simpl in Ho; subst w1; [| done].
  unfold doc_getitem. destruct (doc !! 0%nat) as [page |]; [| done].
  unfold bind, ret. apply extract_world.
Qed.

Lemma extract_text_world (p : pystr) (w : World) :
  snd (extract_text_from_pdf p w) = w.
Proof.
  unfold extract_text_from_pdf, bind, ret.
  pose proof (pdfplumber_open_world p w) as H.
  destruct (pdfplumber_open p w) as [[doc | e] w1]; simpl in H; by subst w1.
Qed.

Lemma load_artifacts_world (BASE : pystr) (w : World) :
  snd (load_artifacts BASE w) = w.
Proof.
  unfold load_artifacts, try_except_OSError, bind, ret, raise.
  pose proof (joblib_load_world (MODEL_PATH BASE </> lit "modelo_svm.pkl") w) as H1.
  destruct (joblib_load _ w) as [[m | e] w1]; simpl in H1; subst w1;
    [| by destruct (is_OSError e)].
  pose proof (joblib_load_world (MODEL_PATH BASE </> lit "vectorizer.pkl") w) as H2.
  destruct (joblib_load _ w) as [[v | e] w1]; simpl in H2; subst w1;
    [| by destruct (is_OSError e)].
  pose proof (joblib_load_world (MODEL_PATH BASE </> lit "label_encoder.pkl") w) as H3.
  destruct (joblib_load _ w) as [[l | e] w1]; simpl in H3; subst w1;
    [done | by destruct (is_OSError e)].
Qed.


(** ** The size of an extracted image *)


(** ** Composing the sheet *)

(** The loop that draws the cut guide adds one segment for every value of
    the range, in order. *)
Lemma draw_cut_guide (ys : list Z) (page : Page) (w : World) :
  for_fold ys [page]
    (fun y doc => ret (draw_line doc 0 (pt x_middle y) (pt x_middle (y + 2))
                         (0, 0, 0) (1 # 2)%Q)) w
  = (Ok [mkPage (page_rect page) (page_text page)
           (page_items page ++ List.map cut_segment ys)], w).
Proof.
  revert page. induction ys as [| y ys IH]; intros page; simpl.
  - unfold ret. rewrite app_nil_r. by destruct page.
  - unfold bind, ret. unfold draw_line at 1. simpl.
    rewrite IH. simpl. by rewrite <- app_assoc.
Qed.

Lemma segments_of_guide (ys : list Z) (tail : list Item) :
  Forall (fun it => is_line it = false) tail ->
  List.filter is_line (List.map cut_segment ys ++ tail) = List.map cut_segment ys.
Proof.
  intros Htail. rewrite List.filter_app.
  rewrite (filter_none_match _ _ Htail), app_nil_r.
  induction ys as [| y ys IH]; [done |]. simpl. by rewrite IH.
Qed.

(** The tail of [compose_sheet]: once the page is drawn, the document is
    saved and the success message printed. *)
Lemma save_and_report_files (out : pystr) (m : M Document) (w w' : World)
    (r : outcome unit) :
  (forall w0, snd (m w0) = w0) ->
  (doc_final <- m ;; doc_save doc_final out ;;; print (msg_generated out)) w
  = (r, w') ->
  w_files w' = w_files w
  \/ exists doc, w_files w' = <[ out := PdfFile doc ]> (w_files w).
Proof.
  intros Hm H. specialize (Hm w).
  apply bind_inv in H as [(e & H & _) | (d & w1 & Hd & H)].
  { rewrite H in Hm. simpl in Hm. subst. by left. }
  rewrite Hd in Hm. simpl in Hm. subst w1.
  apply bind_inv in H as [(e & H & _) | ([] & w1 & Hs & H)].
  - unfold doc_save in H. destruct d; [injection H as _ <-; by left |].
    destruct (w_files w !! out) as [[| | | | | []] |]; try discriminate.
    injection H as _ <-. by left.
  - unfold print in H. injection H as _ <-. simpl.
    unfold doc_save in Hs. destruct d; [discriminate |].
    destruct (w_files w !! out) as [[| | | | | []] |]; try discriminate;
      injection Hs as <-; simpl; eauto.
Qed.

(** A successful composition writes a one-page document: the two images,
    then the cut guide, then possibly the scissors. *)
Lemma compose_sheet_Ok (BASE : pystr) (r2 a5r2 : Rect) (pdf1 label out : pystr)
    (w w' : World) :
  compose_sheet BASE r2 a5r2 pdf1 label out [] w = (Ok tt, w') ->
  exists s1 s2 tail,
    w' = mkWorld
           (<[ out := PdfFile
                 [mkPage sheet_rect None
                    ([ImageItem a5_rect1 (FromStream s1) true;
                      ImageItem a5r2 (FromStream s2) true]
                     ++ List.map cut_segment (range y_start y_end 3) ++ tail)] ]>
              (w_files w))
           (w_console w ++ [msg_generated out])
    /\ Forall (fun it => is_line it = false) tail.
Proof.
  unfold compose_sheet. generalize (range y_start y_end 3) as ys. intros ys H.
  apply bind_Ok in H as (s1 & w1 & H1 & H).
  pose proof (extract_first_page_world pdf1 rect1 260 default_quality w) as E1.
  rewrite H1 in E1; simpl in E1; subst w1.
  apply bind_Ok in H as (s2 & w2 & H2 & H).
  pose proof (extract_first_page_world label r2 260 default_quality w) as E2.
  rewrite H2 in E2; simpl in E2; subst w2.
  unfold new_page in H. simpl in H.
  apply bind_Ok in H as (d1 & w1 & Hi1 & H). injection Hi1 as <- <-.
  apply bind_Ok in H as (d2 & w2 & Hi2 & H).
  unfold insert_image in Hi2. destruct (is_empty a5r2); [discriminate |].
  injection Hi2 as <- <-. simpl in H.
  apply bind_Ok in H as (d3 & w3 & Hf & H).
  unfold add_item in Hf; simpl in Hf.
  rewrite draw_cut_guide in Hf. injection Hf as <- <-. simpl in H.
  apply bind_Ok in H as (b & w4 & Hb & H). injection Hb as <- <-.
  apply bind_Ok in H as (d4 & w5 & Ht & H).
  apply bind_Ok in H as ([] & w6 & Hs & H).
  unfold print in H. injection H as <-.
  assert (exists tail, w5 = w /\ Forall (fun it => is_line it = false) tail /\
            d4 = [mkPage sheet_rect None
                    ([ImageItem a5_rect1 (FromStream s1) true;
                      ImageItem a5r2 (FromStream s2) true]
                     ++ List.map cut_segment ys ++ tail)])
    as (tail & -> & Htail & ->).
  { destruct (bool_decide _).
    - unfold insert_image_file in Ht.
      destruct (is_empty _); [discriminate |].
      destruct (w_files w !! _) as [[] |]; try discriminate.
      injection Ht as <- <-.
      exists [ImageItem (Rect_of (x_middle - 6) (y_end - 18) (x_middle + 6) y_end)
                (FromFile (DATA_PATH BASE </> lit "tijera.png")) true].
      split; [done |]. split; [by repeat constructor |].
      unfold alter; simpl. unfold add_item; simpl. do 2 f_equal.
    - injection Ht as <- <-. exists []. split; [done |]. split; [constructor |].
      by rewrite app_nil_r. }
  exists s1, s2, tail. split; [| done].
  unfold doc_save in Hs.
  destruct (w_files w !! out) as [[| | | | | []] |]; try discriminate;
    by injection Hs as <-.
Qed.

(** Whatever its outcome, [compose_sheet] writes at most the output file. *)
Lemma compose_sheet_files (BASE : pystr) (r2 a5r2 : Rect) (pdf1 label out : pystr)
    (w w' : World) (r : outcome unit) :
  compose_sheet BASE r2 a5r2 pdf1 label out [] w = (r, w') ->
  w_files w' = w_files w
  \/ exists doc, w_files w' = <[ out := PdfFile doc ]> (w_files w).
Proof.
  unfold compose_sheet. generalize (range y_start y_end 3) as ys. intros ys H.
  pose proof (extract_first_page_world pdf1 rect1 260 default_quality w) as E1.
  apply bind_inv in H as [(e & H & _) | (s1 & w1 & H1 & H)].
  { rewrite H in E1. simpl in E1. subst. by left. }
  rewrite H1 in E1; simpl in E1; subst w1.
  pose proof (extract_first_page_world label r2 260 default_quality w) as E2.
  apply bind_inv in H as [(e & H & _) | (s2 & w2 & H2 & H)].
  { rewrite H in E2. simpl in E2. subst. by left. }
  rewrite H2 in E2; simpl in E2; subst w2.
  unfold new_page in H. simpl in H.
  apply bind_inv in H as [(e & H & _) | (d1 & w1 & Hi1 & H)]; [discriminate |].
  injection Hi1 as <- <-.
  apply bind_inv in H as [(e & H & _) | (d2 & w2 & Hi2 & H)].
  { unfold insert_image, raise, ret in H.
    destruct (is_empty _); injection H as _ <-; by left. }
  unfold insert_image, raise, ret in Hi2. destruct (is_empty a5r2); [discriminate |].
  injection Hi2 as <- <-. simpl in H.
  unfold add_item in H; simpl in H. unfold bind at 1 in H.
  rewrite draw_cut_guide in H.
  apply bind_inv in H as [(e & H & _) | (b & w4 & Hb & H)]; [discriminate |].
  injection Hb as <- <-.
  revert H. apply save_and_report_files. intros w0.
  destruct (bool_decide _); [| done].
  unfold insert_image_file. by repeat case_match.
Qed.

(** ** The ways through [generate_sheet] *)

Lemma generate_sheet_no_interm (BASE tipo label out : pystr) (w : World) :
  w_files w !! interm_pdf BASE = None ->
  generate_sheet BASE tipo label out w
  = (Raise (Exn RuntimeError (msg_no_interm (interm_pdf BASE))), w).
Proof.
  intros H1. unfold generate_sheet, os_path_exists, bind at 1.
  fold (interm_pdf BASE). rewrite bool_decide_eq_false_2; [done |].
  rewrite H1. by apply is_Some_None.
Qed.

Lemma generate_sheet_no_label (BASE tipo label out : pystr) (w : World) :
  is_Some (w_files w !! interm_pdf BASE) ->
  w_files w !! label = None ->
  generate_sheet BASE tipo label out w
  = (Raise (Exn RuntimeError (msg_no_label label)), w).
Proof.
  intros H1 H2. unfold generate_sheet, os_path_exists, bind at 1.
  fold (interm_pdf BASE). rewrite bool_decide_eq_true_2 by done. simpl.
  unfold bind at 1. rewrite bool_decide_eq_false_2; [done |].
  rewrite H2. by apply is_Some_None.
Qed.

Lemma generate_sheet_unknown (BASE tipo label out : pystr) (w : World) :
  is_Some (w_files w !! interm_pdf BASE) ->
  is_Some (w_files w !! label) ->
  envio_rects !! tipo = None ->
  generate_sheet BASE tipo label out w
  = (Ok (Some false), mkWorld (w_files w) (w_console w ++ [msg_unsupported tipo])).
Proof.
  intros H1 H2 H3. unfold generate_sheet, os_path_exists, bind at 1.
  fold (interm_pdf BASE). rewrite bool_decide_eq_true_2 by done. simpl.
  unfold bind at 1. rewrite bool_decide_eq_true_2 by done. simpl.
  by rewrite H3.
Qed.

Lemma generate_sheet_known (BASE tipo label out : pystr) (entry : envio_entry)
    (w : World) :
  is_Some (w_files w !! interm_pdf BASE) ->
  is_Some (w_files w !! label) ->
  envio_rects !! tipo = Some entry ->
  generate_sheet BASE tipo label out w
  = try_finally
      (try_except
         (compose_sheet BASE (rect2 entry) (a5_rect2 entry) (interm_pdf BASE)
            label out [] ;;; ret None)
         (fun e => raise (Exn RuntimeError (msg_generate_error e))))
      (os_remove (interm_pdf BASE)) w.
Proof.
  intros H1 H2 H3. unfold generate_sheet, os_path_exists, bind at 1.
  fold (interm_pdf BASE). rewrite bool_decide_eq_true_2 by done. simpl.
  unfold bind at 1. rewrite bool_decide_eq_true_2 by done. simpl.
  by rewrite H3.
Qed.

(** A promotional intermediate without a page: the page lookup raises
    [IndexError], which [generate_sheet] raises again as [RuntimeError]
    after removing the intermediate. *)
Lemma generate_sheet_empty_promo (BASE tipo label out : pystr)
    (entry : envio_entry) (w : World) :
  w_files w !! interm_pdf BASE = Some (PdfFile []) ->
  is_Some (w_files w !! label) ->
  envio_rects !! tipo = Some entry ->
  generate_sheet BASE tipo label out w
  = (Raise (Exn RuntimeError
              (msg_generate_error (Exn IndexError (lit "page 0 not in document")))),
     mkWorld (delete (interm_pdf BASE) (w_files w)) (w_console w)).
Proof.
  intros H1 H2 H3.
  rewrite (generate_sheet_known _ _ _ _ entry) by (by rewrite ?H1).
  unfold try_finally, try_except, compose_sheet, bind, fitz_open.
  rewrite H1. simpl. unfold os_remove. by rewrite H1.
Qed.

(** On the ways through [try] and [finally] the promotional intermediate is
    removed, whether the composition succeeds or raises. *)
Lemma generate_sheet_known_removes_interm (BASE tipo label out : pystr)
    (entry : envio_entry) (f1 : File) (w w' : World) (r : outcome (option bool)) :
  w_files w !! interm_pdf BASE = Some f1 ->
  (forall entries, f1 <> Directory entries) ->
  is_Some (w_files w !! label) ->
  envio_rects !! tipo = Some entry ->
  generate_sheet BASE tipo label out w = (r, w') ->
  w_files w' !! interm_pdf BASE = None.
Proof.
  intros H1 Hnd H2 H3.
  rewrite (generate_sheet_known _ _ _ _ entry) by (by rewrite ?H1).
  unfold try_finally. destruct (try_except _ _ w) as [r1 w1] eqn:Ht.
  assert (exists f, w_files w1 !! interm_pdf BASE = Some f
                    /\ forall entries, f <> Directory entries) as (f & Hf & Hfd).
  { unfold try_except in Ht.
    destruct (bind _ _ w) as [[a | e] w2] eqn:Hb.
    - injection Ht as _ <-. apply bind_Ok in Hb as ([] & w3 & Hc & Hr).
      injection Hr as _ <-.
      apply compose_sheet_files in Hc as [-> | [doc ->]]; [eauto |].
      rewrite lookup_insert. case_decide; eauto.
    - unfold raise in Ht. injection Ht as _ <-.
      apply bind_inv in Hb as [(e' & Hc & _) | (a & w3 & _ & Hr)]; [| discriminate].
      apply compose_sheet_files in Hc as [-> | [doc ->]]; [eauto |].
      rewrite lookup_insert. case_decide; eauto. }
  unfold os_remove. rewrite Hf.
  destruct f; try (intros [= _ <-]; simpl; apply lookup_delete_eq).
  by destruct (Hfd entries).
Qed.

(** ** Loading the training data *)

Lemma load_data_file_world (label folder file : pystr)
    (acc : list pystr * list pystr) (w : World) :
  snd (load_data_file label folder file acc w) = w.
Proof.
  unfold load_data_file. destruct acc as [texts labels].
  destruct (endswith _ _); [| done]. unfold bind.
  pose proof (extract_text_world (folder </> file) w) as H.
  destruct (extract_text_from_pdf _ w) as [[text | e] w1]; simpl in H; subst w1;
    [| done].
  by destruct (truthy text).
Qed.

Lemma load_data_world (BASE : pystr) (w : World) : snd (load_data BASE w) = w.
Proof.
  unfold load_data. apply for_fold_world. intros [label folder] acc w0.
  unfold bind, os_listdir.
  destruct (w_files w0 !! folder) as [[] |]; try done.
  apply for_fold_world. intros. apply load_data_file_world.
Qed.

Lemma load_data_file_corpus (label folder file : pystr)
    (acc acc' : list pystr * list pystr) (w w' : World) :
  corpus_ok acc ->
  load_data_file label folder file acc w = (Ok acc', w') ->
  corpus_ok acc'.
Proof.
  unfold load_data_file. destruct acc as [texts labels]. intros [Hne Hlen].
  destruct (endswith _ _); [| by intros [= <- _]].
  intros H. apply bind_Ok in H as (text & w1 & _ & H).
  destruct text as [| c text]; simpl in H; injection H as <- _; [done |].
  split; simpl in *.
  - apply Forall_app. split; [done |]. by repeat constructor.
  - rewrite !length_app. simpl. lia.
Qed.

Lemma load_data_corpus (BASE : pystr) (acc : list pystr * list pystr)
    (w w' : World) :
  load_data BASE w = (Ok acc, w') -> corpus_ok acc.
Proof.
  unfold load_data.
  apply (for_fold_invariant corpus_ok); [| by split; [constructor |]].
  intros [label folder] s w0 s' w0' Hs H.
  apply bind_Ok in H as (entries & w1 & _ & H).
  revert H. apply (for_fold_invariant corpus_ok); [| done].
  intros. by eapply load_data_file_corpus.
Qed.

(** * The claims *)

(** ** C1: the registry and the sheet bounds *)

(** C1, as the code has it.  A category of [envio_rects] has exactly one
    entry, with one source and one destination rectangle.  The destination
    of the promotional image lies within the 595 x 420 sheet.  The
    destination of the label lies within the sheet's width and below its
    upper edge, but its lower edge, at 440, is 20 points beyond the sheet's
    height: it does not lie within the sheet. *)
Theorem registry_destinations (tipo : pystr) (entry : envio_entry) :
  envio_rects !! tipo = Some entry ->
  (forall entry', envio_rects !! tipo = Some entry' -> entry' = entry)
  /\ within a5_rect1 sheet_rect = true
  /\ within (a5_rect2 entry) (Rect_of 0 0 sheet_width (sheet_height + 20)) = true
  /\ within (a5_rect2 entry) sheet_rect = false.
Proof.
  intros H. split; [intros e' H'; congruence |].
  destruct (envio_rects_lookup _ _ H) as [[_ ->] | [_ ->]];
    repeat split; vm_compute; reflexivity.
Qed.

Lemma registry_destinations_witness :
  envio_rects !! lit "CorreoArg"
  = Some (mkEntry (Rect_of 50 57 305 490) (Rect_of 297 10 595 440))
  /\ within a5_rect1 sheet_rect = true
  /\ within (Rect_of 297 10 595 440) sheet_rect = false.
Proof.
  assert (envio_rects !! lit "CorreoArg"
          = Some (mkEntry (Rect_of 50 57 305 490) (Rect_of 297 10 595 440))) as H
    by (vm_compute; reflexivity).
  split; [exact H |].
  destruct (registry_destinations (lit "CorreoArg") _ H) as (_ & Hp & _ & Hl).
  split; [exact Hp | exact Hl].
Defined.

(** C1 fails as stated: the destination of the label of the category
    MercadoLibre is not within the sheet. *)
Lemma label_destination_exceeds_sheet :
  envio_rects !! lit "MercadoLibre"
  = Some (mkEntry (Rect_of 30 140 297 600) (Rect_of 297 10 595 440))
  /\ within (a5_rect2 (mkEntry (Rect_of 30 140 297 600) (Rect_of 297 10 595 440)))
       sheet_rect = false.
Proof. split; vm_compute; reflexivity. Qed.

(** ** C2: the composed sheet *)

(** C2, as the code has it.  When [generate_sheet] runs to its end, the file
    system is the one before the call with the output file written and the
    promotional intermediate removed; the output holds exactly one page,
    of 595 x 420 points; the line segments on it are those of the cut
    guide, one for each value of [range(1, 419, 3)], which makes 140. *)
Theorem generate_sheet_success (BASE tipo label out : pystr) (w w' : World) :
  generate_sheet BASE tipo label out w = (Ok None, w') ->
  exists page : Page,
    w_files w' = delete (interm_pdf BASE) (<[ out := PdfFile [page] ]> (w_files w))
    /\ page_rect page = Rect_of 0 0 595 420
    /\ segments page = List.map cut_segment (range 1 419 3)
    /\ length (segments page) = 140%nat.
Proof.
  intros H.
  destruct (w_files w !! interm_pdf BASE) as [f1 |] eqn:E1;
    [| by rewrite generate_sheet_no_interm in H].
  destruct (w_files w !! label) as [f2 |] eqn:E2;
    [| rewrite generate_sheet_no_label in H; by rewrite ?E1].
  destruct (envio_rects !! tipo) as [entry |] eqn:E3;
    [| rewrite generate_sheet_unknown in H; by rewrite ?E1, ?E2].
  rewrite (generate_sheet_known _ _ _ _ entry) in H by (by rewrite ?E1, ?E2).
  unfold try_finally, try_except in H.
  destruct (bind _ _ w) as [[r | e] w1] eqn:Eb.
  - apply bind_Ok in Eb as ([] & w2 & Hc & Hr). injection Hr as <- <-.
    apply compose_sheet_Ok in Hc as (s1 & s2 & tail & -> & Htail).
    change (range 1 419 3) with (range y_start y_end 3).
    assert (length (range y_start y_end 3) = 140%nat) as Hlen
      by (vm_compute; reflexivity).
    revert H Hlen. generalize (range y_start y_end 3) as ys. intros ys H Hlen.
    unfold os_remove in H. simpl in H.
    destruct (<[out:=_]> _ !! interm_pdf BASE) as [[] |]; simpl in H;
      try discriminate; injection H as <-; simpl;
      (eexists; split; [reflexivity |]; split; [reflexivity |];
       unfold segments; simpl; rewrite segments_of_guide by done;
       split; [reflexivity | by rewrite length_map]).
  - unfold raise in H. destruct (os_remove _ w1) as [[] ?]; discriminate.
Qed.

Lemma generate_sheet_success_witness :
  generate_sheet Sample.base (lit "MercadoLibre") Sample.label_path Sample.out_path
    Sample.ready
  = (Ok None,
     snd (generate_sheet Sample.base (lit "MercadoLibre") Sample.label_path
            Sample.out_path Sample.ready))
  /\ exists page : Page,
       w_files (snd (generate_sheet Sample.base (lit "MercadoLibre")
                       Sample.label_path Sample.out_path Sample.ready))
       = delete (interm_pdf Sample.base)
           (<[ Sample.out_path := PdfFile [page] ]> (w_files Sample.ready))
       /\ page_rect page = Rect_of 0 0 595 420
       /\ segments page = List.map cut_segment (range 1 419 3)
       /\ length (segments page) = 140%nat.
Proof.
  assert (generate_sheet Sample.base (lit "MercadoLibre") Sample.label_path
            Sample.out_path Sample.ready
          = (Ok None,
             snd (generate_sheet Sample.base (lit "MercadoLibre") Sample.label_path
                    Sample.out_path Sample.ready))) as H
    by (vm_compute; reflexivity).
  split; [exact H |].
  exact (generate_sheet_success _ _ _ _ _ _ H).
Defined.

(** C2 fails as stated: a successful run leaves a sheet whose cut guide has
    140 segments, and [floor((419 - 1) / 3)] is 139. *)
Lemma cut_guide_has_140_segments :
  fst (generate_sheet Sample.base (lit "MercadoLibre") Sample.label_path
         Sample.out_path Sample.ready) = Ok None
  /\ sheet_segments
       (snd (generate_sheet Sample.base (lit "MercadoLibre") Sample.label_path
               Sample.out_path Sample.ready)) Sample.out_path
     = Some 140%nat
  /\ sheet_segments
       (snd (generate_sheet Sample.base (lit "MercadoLibre") Sample.label_path
               Sample.out_path Sample.ready)) Sample.out_path
     <> Some (Z.to_nat ((419 - 1) / 3)).
Proof.
  repeat split; try (vm_compute; reflexivity). vm_compute. discriminate.
Qed.

(** ** C3: classifying a document without text *)




(** ** C4: a category the registry does not know *)

(** C4.  For a category that is not in [envio_rects], [generate_sheet]
    leaves every file as it was, so that no output file, whole or partial,
    is written.  With both input documents in place, which the function
    checks before it looks at the category, it prints the message and
    returns [False] without raising.  With one of them missing, that first
    check raises its [RuntimeError], as it does for every category. *)
Theorem generate_sheet_unknown_category (BASE tipo label out : pystr) (w : World) :
  envio_rects !! tipo = None ->
  w_files (snd (generate_sheet BASE tipo label out w)) = w_files w
  /\ (is_Some (w_files w !! interm_pdf BASE) ->
      is_Some (w_files w !! label) ->
      generate_sheet BASE tipo label out w
      = (Ok (Some false),
         mkWorld (w_files w) (w_console w ++ [msg_unsupported tipo])))
  /\ (w_files w !! interm_pdf BASE = None \/ w_files w !! label = None ->
      exists e, generate_sheet BASE tipo label out w = (Raise e, w)
                /\ exn_cls e = RuntimeError).
Proof.
  intros H.
  destruct (w_files w !! interm_pdf BASE) as [f1 |] eqn:E1.
  - destruct (w_files w !! label) as [f2 |] eqn:E2.
    + rewrite generate_sheet_unknown by (by rewrite ?E1, ?E2).
      split; [done |]. split; [done |]. by intros [? | ?].
    + rewrite generate_sheet_no_label by (by rewrite ?E1).
      split; [done |]. split; [by intros _ [? ?] |]. eauto.
  - rewrite generate_sheet_no_interm by done.
    split; [done |]. split; [by intros [? ?] |]. eauto.
Qed.

Lemma generate_sheet_unknown_category_witness :
  envio_rects !! lit "Andreani" = None
  /\ generate_sheet Sample.base (lit "Andreani") Sample.label_path Sample.out_path
       Sample.ready
     = (Ok (Some false),
        mkWorld (w_files Sample.ready)
          (w_console Sample.ready ++ [msg_unsupported (lit "Andreani")])).
Proof.
  assert (envio_rects !! lit "Andreani" = None) as H by (vm_compute; reflexivity).
  split; [exact H |].
  apply (proj1 (proj2 (generate_sheet_unknown_category Sample.base (lit "Andreani")
                         Sample.label_path Sample.out_path Sample.ready H))).
  - vm_compute. eauto.
  - vm_compute. eauto.
Defined.

(** ** C5: removal of the promotional intermediate *)

(** C5 at its failing input.  With both input documents in place and a
    category the registry does not know, [generate_sheet] returns [False]
    and the promotional intermediate is still there: the [return] of line
    105 comes before the [try] whose [finally] removes the file. *)
Theorem soft_failure_keeps_interm :
  envio_rects !! lit "Andreani" = None
  /\ fst (generate_sheet Sample.base (lit "Andreani") Sample.label_path
            Sample.out_path Sample.ready) = Ok (Some false)
  /\ w_files (snd (generate_sheet Sample.base (lit "Andreani") Sample.label_path
                     Sample.out_path Sample.ready)) !! interm_pdf Sample.base
     = Some (PdfFile [Sample.promo_page]).
Proof. repeat split; vm_compute; reflexivity. Qed.

(** ** C6: regions that reach outside the page *)

(** C6, as the code has it.  [extract_high_res_image] receives a page, not
    a page number, and checks neither: a rectangle that reaches outside
    the page gives exactly what its intersection with the page gives, so
    the region is clamped and no error is raised on that account.  A page
    number out of range fails in the caller: when the promotional
    intermediate has no page, the lookup of page 0 in [generate_sheet]
    raises [IndexError], raised again as the [RuntimeError] of the
    composition. *)
Theorem extract_does_not_validate :
  (forall (page : Page) (rect : Rect) (dpi quality : Z) (w : World),
      extract_high_res_image page rect dpi quality w
      = extract_high_res_image page (intersect (page_rect page) rect) dpi quality w)
  /\ (forall (BASE tipo label out : pystr) (entry : envio_entry) (w : World),
         w_files w !! interm_pdf BASE = Some (PdfFile []) ->
         is_Some (w_files w !! label) ->
         envio_rects !! tipo = Some entry ->
         generate_sheet BASE tipo label out w
         = (Raise (Exn RuntimeError
                     (msg_generate_error
                        (Exn IndexError (lit "page 0 not in document")))),
            mkWorld (delete (interm_pdf BASE) (w_files w)) (w_console w))).
Proof.
  split.
  - intros. unfold extract_high_res_image. by rewrite get_pixmap_clamped.
  - intros. by eapply generate_sheet_empty_promo.
Qed.

Lemma extract_does_not_validate_witness :
  w_files Sample.empty_promo !! interm_pdf Sample.base = Some (PdfFile [])
  /\ generate_sheet Sample.base (lit "MercadoLibre") Sample.label_path
       Sample.out_path Sample.empty_promo
     = (Raise (Exn RuntimeError
                 (msg_generate_error (Exn IndexError (lit "page 0 not in document")))),
        mkWorld (delete (interm_pdf Sample.base) (w_files Sample.empty_promo))
          (w_console Sample.empty_promo)).
Proof.
  assert (w_files Sample.empty_promo !! interm_pdf Sample.base = Some (PdfFile []))
    as H by (vm_compute; reflexivity).
  split; [exact H |].
  apply (proj2 extract_does_not_validate Sample.base (lit "MercadoLibre")
           Sample.label_path Sample.out_path
           (mkEntry (Rect_of 30 140 297 600) (Rect_of 297 10 595 440))
           Sample.empty_promo H).
  - vm_compute. eauto.
  - vm_compute. reflexivity.
Defined.

(** C6 fails as stated: the region cut out of a MercadoLibre label reaches
    180 points below a page of 297 x 420 points; the extraction raises
    nothing and returns the image of the part on the page, 965 x 1012
    pixels, the same as for the region clamped to the page. *)
Lemma region_outside_page_is_clamped :
  within (Rect_of 30 140 297 600) (page_rect Sample.half_page) = false
  /\ extract_high_res_image Sample.half_page (Rect_of 30 140 297 600) 260 75
       Sample.ready
     = (Ok (MkJpeg 965 1012 75
              (Render [OpaqueItem 6] (mkMatrix (260 # 72) (260 # 72))
                 (mkIRect 108 505 1073 1517))),
        Sample.ready)
  /\ extract_high_res_image Sample.half_page (Rect_of 30 140 297 600) 260 75
       Sample.ready
     = extract_high_res_image Sample.half_page (Rect_of 30 140 297 420) 260 75
         Sample.ready.
Proof. repeat split; vm_compute; reflexivity. Qed.

(** ** C7: extracting the same region twice *)


(** ** C8: the training corpus and the vocabulary *)

(** C8, as the code has it.  A document of the training folders whose text
    is empty is passed over: it adds neither a text nor a label and raises
    nothing.  Nothing is printed for it: [load_data] leaves the world,
    console included, as it was.  When the vectorizer of [main] has been
    fitted, the corpus holds no empty text and as many labels as texts,
    [max_features] is 5000, the stop words are the trimmed non-blank lines
    of the stop-word file, and the vocabulary has at most 5000 terms. *)
Theorem training_corpus_and_vocabulary (BASE : pystr)
    (analyzer : pystr -> list pystr) :
  (forall (label folder file : pystr) (acc : list pystr * list pystr)
          (doc : Document) (w : World),
      endswith file (lit ".pdf") = true ->
      w_files w !! (folder </> file) = Some (PdfFile doc) ->
      strip (joined_pages doc) = [] ->
      load_data_file label folder file acc w = (Ok acc, w))
  /\ (forall w : World, snd (load_data BASE w) = w)
  /\ (forall (w w' : World) (vec : TfidfVectorizer) (texts labels : list pystr),
         main_vectorizer BASE analyzer w = (Ok (vec, (texts, labels)), w') ->
         w' = w
         /\ Forall (fun text => text <> []) texts
         /\ length texts = length labels
         /\ max_features vec = Some 5000%nat
         /\ (exists lines : list pystr,
                w_files w !! SWORDS_FILE BASE = Some (TextFile lines)
                /\ stop_words vec
                   = List.map strip
                       (List.filter (fun line => truthy (strip line)) lines))
         /\ (exists vocabulary : list pystr,
                vocabulary_ vec = Some vocabulary
                /\ (length vocabulary <= 5000)%nat)).
Proof.
  split; [| split].
  - intros label folder file [texts labels] doc w Hpdf Hdoc Hempty.
    unfold load_data_file. rewrite Hpdf.
    unfold extract_text_from_pdf, bind, pdfplumber_open, ret. rewrite Hdoc.
    fold (joined_pages doc). by rewrite Hempty.
  - apply load_data_world.
  - intros w w' vec texts labels H. unfold main_vectorizer in H.
    apply bind_Ok in H as ([texts0 labels0] & w1 & Hdata & H).
    pose proof (load_data_world BASE w) as Hw. rewrite Hdata in Hw. simpl in Hw.
    subst w1. apply load_data_corpus in Hdata as [Hne Hlen]. simpl in Hne, Hlen.
    apply bind_Ok in H as (stopwords & w1 & Hstop & H).
    unfold load_stopwords, bind, open_text, ret in Hstop.
    destruct (w_files w !! SWORDS_FILE BASE) as [[| | lines | | |] |] eqn:Hfile;
      try discriminate.
    injection Hstop as <- <-.
    apply bind_Ok in H as (fitted & w1 & Hfit & H).
    injection H as <- <- <- <-. unfold lift in Hfit. injection Hfit as Hfit <-.
    unfold fit_vocabulary in Hfit. cbn [stop_words max_features] in Hfit.
    destruct (remove_dups _) as [| t terms]; [discriminate |].
    injection Hfit as <-. cbn [max_features stop_words vocabulary_].
    repeat split; try done; [by eexists |].
    eexists. split; [done |]. rewrite length_take. lia.
Qed.

Lemma training_corpus_and_vocabulary_witness :
  main_vectorizer Sample.base Sample.words Sample.training
  = (Ok (mkTfidf [lit "Envios"; lit "de"] (Some 5000%nat)
           (Some [lit "Mercado"; lit "Flex"; lit "Correo"; lit "Argentino"]),
         ([lit "Mercado Envios  Flex"; lit "Correo Argentino"],
          [lit "MercadoLibre"; lit "CorreoArg"])),
     Sample.training)
  /\ (length [lit "Mercado"; lit "Flex"; lit "Correo"; lit "Argentino"]
      <= 5000)%nat.
Proof.
  assert (main_vectorizer Sample.base Sample.words Sample.training
          = (Ok (mkTfidf [lit "Envios"; lit "de"] (Some 5000%nat)
                   (Some [lit "Mercado"; lit "Flex"; lit "Correo"; lit "Argentino"]),
                 ([lit "Mercado Envios  Flex"; lit "Correo Argentino"],
                  [lit "MercadoLibre"; lit "CorreoArg"])),
             Sample.training)) as H by (vm_compute; reflexivity).
  split; [exact H |].
  destruct (proj2 (proj2 (training_corpus_and_vocabulary Sample.base Sample.words))
              _ _ _ _ _ H) as (_ & _ & _ & _ & _ & vocabulary & Hv & Hlen).
  injection Hv as <-. exact Hlen.
Defined.

(** C8 fails as stated: the scanned label [b.pdf] of the training set has
    no text; [load_data] passes it over and returns the two other
    documents, and the console, empty before, is empty afterwards: no
    warning is given. *)
Lemma empty_document_skipped_silently :
  extract_text_from_pdf (DATA_PATH Sample.base </> lit "labelsMl" </> lit "b.pdf")
    Sample.training = (Ok [], Sample.training)
  /\ fst (load_data Sample.base Sample.training)
     = Ok ([lit "Mercado Envios  Flex"; lit "Correo Argentino"],
           [lit "MercadoLibre"; lit "CorreoArg"])
  /\ w_console Sample.training = []
  /\ w_console (snd (load_data Sample.base Sample.training)) = [].
Proof. repeat split; vm_compute; reflexivity. Qed.

(** ** C9: finding the input document *)

(** C9, as the code has it.  Let the base directory list [entries].  When
    no entry ends in [.pdf] and holds a hyphen, the first statements of
    [generar_etiqueta] raise the built-in [RuntimeError], with the message
    that no file of the expected form was found: the code has no exception
    class of its own.  Otherwise the first such entry of the listing is
    taken, and its name without the extension is cut at its first hyphen:
    what stands before is [medio_venta], what stands after is
    [num_orden]. *)
Theorem discover_input (BASE : pystr) (entries : list pystr) (w : World) :
  w_files w !! BASE = Some (Directory entries) ->
  (List.filter is_label_name entries = [] ->
   generar_etiqueta_discover BASE w = (Raise (Exn RuntimeError msg_no_input), w))
  /\ (forall (pre post : list pystr) (f : pystr),
         entries = pre ++ f :: post ->
         Forall (fun x => is_label_name x = false) pre ->
         is_label_name f = true ->
         exists medio num : pystr,
           f = medio ++ [hyphen] ++ num ++ lit ".pdf"
           /\ (hyphen ∉ medio)
           /\ generar_etiqueta_discover BASE w
              = (Ok (mkDiscovery f medio num (BASE </> f)
                       (OUT_PATH BASE </> (medio ++ num ++ lit ".pdf"))), w)).
Proof.
  intros Hdir. split.
  - intros Hnone. unfold generar_etiqueta_discover, bind, os_listdir.
    rewrite Hdir. rewrite Hnone. reflexivity.
  - intros pre post f -> Hpre Hf.
    destruct (is_label_name_true f Hf) as (medio & num & Heq & Hn & Hcut).
    exists medio, num. split; [done |]. split; [done |].
    unfold generar_etiqueta_discover, bind at 1, os_listdir. rewrite Hdir.
    assert (List.filter is_label_name (pre ++ f :: post)
            = f :: List.filter is_label_name post) as ->.
    { rewrite List.filter_app. simpl. rewrite Hf.
      by rewrite (filter_none_match _ _ Hpre). }
    simpl. unfold bind, ret.
    assert (f = (medio ++ hyphen :: num) ++ lit ".pdf") as Hstem
      by (rewrite Heq; simpl; by rewrite <- app_assoc).
    rewrite Hstem at 1. rewrite rsplit1_pdf. simpl.
    unfold split1. rewrite Hcut. simpl. done.
Qed.

Lemma discover_input_witness :
  w_files Sample.with_labels !! Sample.base = Some (Directory Sample.listing)
  /\ exists medio num : pystr,
       lit "meli-123456.pdf" = medio ++ [hyphen] ++ num ++ lit ".pdf"
       /\ (hyphen ∉ medio)
       /\ generar_etiqueta_discover Sample.base Sample.with_labels
          = (Ok (mkDiscovery (lit "meli-123456.pdf") medio num
                   (Sample.base </> lit "meli-123456.pdf")
                   (OUT_PATH Sample.base </> (medio ++ num ++ lit ".pdf"))),
             Sample.with_labels).
Proof.
  assert (w_files Sample.with_labels !! Sample.base = Some (Directory Sample.listing))
    as H by (vm_compute; reflexivity).
  split; [exact H |].
  apply (proj2 (discover_input Sample.base Sample.listing Sample.with_labels H)
           [lit "cfg.py"; lit "notas.pdf"] [lit "correo-987654.pdf"]).
  - reflexivity.
  - repeat constructor.
  - vm_compute; reflexivity.
Defined.

(** C9 fails as stated: in a base directory without a label the run ends
    with a [RuntimeError], and no exception of the program goes by the
    name [NoInputFoundError]. *)
Lemma no_input_raises_RuntimeError :
  List.filter is_label_name [lit "cfg.py"; lit "notas.pdf"] = []
  /\ exists e : exn,
       generar_etiqueta_discover Sample.base Sample.without_labels
       = (Raise e, Sample.without_labels)
       /\ generar_etiqueta Sample.base Scenario.mk Scenario.lpstat Scenario.lp
            Scenario.move Sample.without_labels
          = (Raise e, Sample.without_labels)
       /\ e = Exn RuntimeError msg_no_input
       /\ class_name (exn_cls e) = "RuntimeError"%string
       /\ class_name (exn_cls e) <> "NoInputFoundError"%string
       /\ forall c : exn_class, class_name c <> "NoInputFoundError"%string.
Proof.
  split; [reflexivity |]. exists (Exn RuntimeError msg_no_input).
  split; [reflexivity |]. split; [reflexivity |]. split; [reflexivity |].
  split; [reflexivity |]. split; [discriminate |]. intros []; discriminate.
Qed.

(** ** C10: the place of the label on the sheet *)

(** C10.  Every entry of [envio_rects] has the destination rectangle
    (297, 10, 595, 440); the source rectangles of the two categories
    differ. *)
Theorem label_destination_fixed :
  (forall (tipo : pystr) (entry : envio_entry),
      envio_rects !! tipo = Some entry ->
      a5_rect2 entry = Rect_of 297 10 595 440)
  /\ (exists e1 e2 : envio_entry,
         envio_rects !! lit "MercadoLibre" = Some e1
         /\ envio_rects !! lit "CorreoArg" = Some e2
         /\ rect2 e1 <> rect2 e2).
Proof.
  split.
  - intros tipo entry H.
    destruct (envio_rects_lookup _ _ H) as [[_ ->] | [_ ->]]; reflexivity.
  - eexists _, _. repeat split; [vm_compute; reflexivity .. |].
    simpl. discriminate.
Qed.

Lemma label_destination_fixed_witness :
  envio_rects !! lit "CorreoArg"
  = Some (mkEntry (Rect_of 50 57 305 490) (Rect_of 297 10 595 440))
  /\ a5_rect2 (mkEntry (Rect_of 50 57 305 490) (Rect_of 297 10 595 440))
     = Rect_of 297 10 595 440.
Proof.
  split; [vm_compute; reflexivity |].
  apply (proj1 label_destination_fixed (lit "CorreoArg")).
  vm_compute; reflexivity.
Defined.

(** * Further properties *)

(** ** Auxiliary facts *)

(** ** Trimming *)

Lemma lstrip_head (s : pystr) :
  lstrip s = [] \/ exists c r, lstrip s = c :: r /\ isspace c = false.
Proof.
  induction s as [| c r IH]; [by left |]. simpl.
  destruct (isspace c) eqn:E; [done | right; eauto].
Qed.

Lemma lstrip_cut (s : pystr) :
  exists pre, s = pre ++ lstrip s /\ Forall (fun c => isspace c = true) pre.
Proof.
  induction s as [| c r (pre & Hs & Hpre)]; [by exists [] |]. simpl.
  destruct (isspace c) eqn:E.
  - exists (c :: pre). split; [simpl; congruence | by constructor].
  - by exists [].
Qed.

Lemma lstrip_nonspace (c : N) (r : pystr) :
  isspace c = false -> lstrip (c :: r) = c :: r.
Proof. intros H. simpl. by rewrite H. Qed.

(** A trimmed string is empty, or begins and ends with characters that are
    no white space. *)
Lemma strip_ends (s : pystr) :
  strip s = []
  \/ (exists c, head (strip s) = Some c /\ isspace c = false)
     /\ (exists d, last (strip s) = Some d /\ isspace d = false).
Proof.
  unfold strip, rstrip.
  destruct (lstrip_head s) as [-> | (c & r & Hl & Hc)]; [by left |].
  rewrite Hl.
  destruct (lstrip_head (rev (c :: r))) as [Hr | (d & t & Hr & Hd)].
  - (* everything trimmed away: impossible, [c] is no white space *)
    destruct (lstrip_cut (rev (c :: r))) as (pre & Hs & Hpre).
    rewrite Hr, app_nil_r in Hs. subst pre.
    rewrite Forall_forall in Hpre.
    assert (isspace c = true); [| congruence].
    apply Hpre. apply list_elem_of_In. apply (proj1 (in_rev (c :: r) c)). by left.
  - right. rewrite Hr.
    destruct (lstrip_cut (rev (c :: r))) as (pre & Hs & Hpre).
    rewrite Hr in Hs.
    assert (c :: r = rev t ++ d :: rev pre) as Hcr.
    { rewrite <- (rev_involutive (c :: r)), Hs, rev_app_distr. simpl.
      by rewrite <- app_assoc. }
    split.
    + exists c. split; [| done]. simpl rev.
      destruct (rev t) as [| x u] eqn:Et; simpl in *; congruence.
    + exists d. split; [| done]. simpl rev. by rewrite last_snoc.
Qed.

Lemma strip_nonempty_fixed (s : pystr) :
  strip (strip s) = strip s.
Proof.
  destruct (strip_ends s) as [-> | [(c & Hc & Hcs) (d & Hd & Hds)]]; [done |].
  destruct (strip s) as [| c' u] eqn:E; [done |]. simpl in Hc.
  injection Hc as ->. unfold strip. rewrite lstrip_nonspace by done.
  unfold rstrip.
  destruct (rev (c :: u)) as [| d' v] eqn:Er.
  - apply (f_equal (@length N)) in Er. rewrite length_rev in Er. done.
  - assert (d' = d) as ->.
    { apply (f_equal (@rev N)) in Er. rewrite rev_involutive in Er. rewrite Er in Hd.
      simpl in Hd. rewrite last_snoc in Hd. congruence. }
    rewrite lstrip_nonspace by done. rewrite <- Er. by rewrite rev_involutive.
Qed.

Lemma strip_trimmed (s : pystr) : strip s <> [] -> trimmed (strip s).
Proof. intros H. by destruct (strip_ends s) as [? | ?]. Qed.

Lemma trimmed_nonempty (s : pystr) : trimmed s -> s <> [].
Proof. intros [(c & H & _) _] ->. done. Qed.

Lemma truthy_true (s : pystr) : truthy s = true <-> s <> [].
Proof. by destruct s. Qed.

Lemma map_filter_strip (lines : list pystr) :
  List.map strip (List.filter (fun line => truthy (strip line)) lines)
  = List.filter truthy (List.map strip lines).
Proof.
  induction lines as [| l ls IH]; [done |]. simpl.
  destruct (truthy (strip l)); simpl; by rewrite IH.
Qed.

Lemma load_folder (w : World) (label folder : pystr) (entries : list pystr)
    (texts labels : list pystr) :
  (forall file, file ∈ entries -> endswith file (lit ".pdf") = true ->
                is_Some (document_text w (folder </> file))) ->
  for_fold entries (texts, labels) (load_data_file label folder) w
  = (Ok (texts ++ folder_texts w folder entries,
         labels ++ replicate (length (folder_texts w folder entries)) label), w).
Proof.
  revert texts labels. induction entries as [| file entries IH];
    intros texts labels Hall.
  - simpl. unfold ret. by rewrite !app_nil_r.
  - simpl. unfold bind. unfold load_data_file at 1.
    assert (forall file0, file0 ∈ entries -> endswith file0 (lit ".pdf") = true ->
                          is_Some (document_text w (folder </> file0))) as Hrest
      by (intros; apply Hall; [by apply elem_of_cons; right | done]).
    destruct (endswith file (lit ".pdf")) eqn:Epdf.
    + destruct (Hall file) as [text Htext]; [by apply elem_of_cons; left | done |].
      rewrite Htext. unfold document_text in Htext.
      unfold extract_text_from_pdf, bind, pdfplumber_open, ret.
      destruct (w_files w !! (folder </> file)) as [[doc | | | | | ] |];
        try discriminate.
      fold (joined_pages doc). injection Htext as ->.
      destruct text as [| c text]; simpl.
      * by rewrite IH.
      * rewrite IH by done. rewrite <- !app_assoc. simpl. done.
    + unfold ret. by rewrite IH.
Qed.

Lemma lstrip_nil (s : pystr) : lstrip s = [] <-> blank s.
Proof.
  unfold blank. induction s as [| c r IH]; simpl; [by split |].
  destruct (isspace c) eqn:E.
  - rewrite IH. split; [by constructor | by inversion 1].
  - split; [done |]. inversion 1; congruence.
Qed.

Lemma strip_nil (s : pystr) : strip s = [] <-> blank s.
Proof.
  split.
  - intros H. destruct (lstrip_cut s) as (pre & Hs & Hpre).
    destruct (lstrip_cut (rev (lstrip s))) as (pre' & Hs' & Hpre').
    unfold strip, rstrip in H.
    assert (lstrip (rev (lstrip s)) = []) as Hr.
    { apply (f_equal (@rev N)) in H. by rewrite rev_involutive in H. }
    rewrite Hr, app_nil_r in Hs'.
    rewrite Hs. apply Forall_app. split; [done |].
    rewrite <- (rev_involutive (lstrip s)), Hs'.
    apply Forall_forall. intros c Hc. rewrite Forall_forall in Hpre'. apply Hpre'.
    apply list_elem_of_In. apply list_elem_of_In in Hc. by apply in_rev.
  - intros H. apply lstrip_nil in H. unfold strip. by rewrite H.
Qed.

Lemma blank_join (parts : list pystr) :
  blank (join (lit " ") parts) <-> Forall blank parts.
Proof.
  unfold blank. induction parts as [| p rest IH]; [by split |].
  destruct rest as [| q rest].
  - simpl. split; [by repeat constructor | by inversion 1].
  - change (join (lit " ") (p :: q :: rest))
      with (p ++ [32%N] ++ join (lit " ") (q :: rest)).
    rewrite !Forall_app, IH. split.
    + intros (Hp & _ & Hr). by constructor.
    + inversion 1; subst. split; [done |]. split; [by repeat constructor | done].
Qed.

Lemma blank_nil : blank [].
Proof. constructor. Qed.

Lemma filter_none_blank (xs : list (option pystr)) :
  Forall blank (filter_none xs) <-> Forall (fun x => blank (or_empty x)) xs.
Proof.
  induction xs as [| [s |] xs IH]; simpl.
  - by split.
  - destruct s as [| c s]; simpl.
    + rewrite IH. split; [constructor; [apply blank_nil | done] | by inversion 1].
    + split; inversion 1; subst; constructor; by try apply IH.
  - rewrite IH. split; [constructor; [apply blank_nil | done] | by inversion 1].
Qed.

Lemma extract_first_page_inv (p : pystr) (rect : Rect) (dpi quality : Z)
    (w w' : World) (s : Jpeg) :
  (doc <- fitz_open p ;;
   page <- doc_getitem doc 0 ;;
   extract_high_res_image page rect dpi quality) w = (Ok s, w') ->
  w' = w
  /\ exists page, first_page w p = Some page
                  /\ extract_high_res_image page rect dpi quality w = (Ok s, w).
Proof.
  intros H. pose proof (extract_first_page_world p rect dpi quality w) as E.
  rewrite H in E. simpl in E. subst w'. split; [done |].
  unfold bind, fitz_open, first_page in *.
  destruct (w_files w !! p) as [[[| page doc] | | | | |] |]; try discriminate.
  simpl in H. eauto.
Qed.

Lemma extract_first_page_run (p : pystr) (rect : Rect) (dpi quality : Z)
    (w : World) (page : Page) :
  first_page w p = Some page ->
  (doc <- fitz_open p ;;
   page <- doc_getitem doc 0 ;;
   extract_high_res_image page rect dpi quality) w
  = extract_high_res_image page rect dpi quality w.
Proof.
  unfold bind, fitz_open, first_page.
  destruct (w_files w !! p) as [[[| page' doc] | | | | |] |]; try discriminate.
  by intros [= ->].
Qed.

(** The end of [compose_sheet], from the page with its two images. *)
Lemma compose_sheet_run (BASE : pystr) (r2 a5r2 : Rect) (pdf1 label out : pystr)
    (w : World) (p1 p2 : Page) (s1 s2 : Jpeg) :
  first_page w pdf1 = Some p1 ->
  first_page w label = Some p2 ->
  extract_high_res_image p1 rect1 260 default_quality w = (Ok s1, w) ->
  extract_high_res_image p2 r2 260 default_quality w = (Ok s2, w) ->
  is_empty a5r2 = false ->
  compose_sheet BASE r2 a5r2 pdf1 label out [] w
  = (doc_final <-
       (has_tijera <- os_path_exists (tijera_png BASE) ;;
        if has_tijera
        then insert_image_file
               [mkPage sheet_rect None
                  ([ImageItem a5_rect1 (FromStream s1) true;
                    ImageItem a5r2 (FromStream s2) true]
                   ++ List.map cut_segment (range y_start y_end 3))]
               0 tijera_rect (tijera_png BASE)
        else ret [mkPage sheet_rect None
                    ([ImageItem a5_rect1 (FromStream s1) true;
                      ImageItem a5r2 (FromStream s2) true]
                     ++ List.map cut_segment (range y_start y_end 3))]) ;;
     doc_save doc_final out ;;; print (msg_generated out)) w.
Proof.
  intros H1 H2 E1 E2 Hne. unfold compose_sheet.
  generalize (range y_start y_end 3) as ys. intros ys.
  unfold bind at 1. rewrite (extract_first_page_run _ _ _ _ _ _ H1), E1.
  unfold bind at 1. rewrite (extract_first_page_run _ _ _ _ _ _ H2), E2.
  unfold new_page. simpl length. simpl app.
  unfold bind at 1. unfold insert_image at 1.
  change (is_empty a5_rect1) with false. cbv iota. unfold ret at 1.
  unfold bind at 1. unfold insert_image at 1. rewrite Hne. unfold ret at 1.
  unfold bind at 1. simpl alter. unfold add_item. simpl page_items. simpl app.
  rewrite draw_cut_guide. simpl.
  reflexivity.
Qed.

Lemma first_page_is_Some (w : World) (p : pystr) (page : Page) :
  first_page w p = Some page ->
  exists doc, w_files w !! p = Some (PdfFile (page :: doc)).
Proof.
  unfold first_page.
  destruct (w_files w !! p) as [[[| page' doc] | | | | |] |]; try discriminate.
  intros [= ->]. eauto.
Qed.

(** The scissors and the saving of the sheet. *)
Lemma finish_sheet (BASE out : pystr) (items : list Item) (w w' : World) :
  (doc_final <-
     (has_tijera <- os_path_exists (tijera_png BASE) ;;
      if has_tijera
      then insert_image_file [mkPage sheet_rect None items] 0 tijera_rect
             (tijera_png BASE)
      else ret [mkPage sheet_rect None items]) ;;
   doc_save doc_final out ;;; print (msg_generated out)) w = (Ok tt, w')
  <-> (w_files w !! tijera_png BASE = None
       \/ w_files w !! tijera_png BASE = Some ImageFile)
      /\ (forall entry entries,
             w_files w !! out <> Some (Directory (entry :: entries)))
      /\ w' = mkWorld
                (<[ out := PdfFile [mkPage sheet_rect None (items ++ scissors BASE w)] ]>
                   (w_files w))
                (w_console w ++ [msg_generated out]).
Proof.
  unfold bind, os_path_exists, scissors, insert_image_file, ret, doc_save, print.
  change (is_empty tijera_rect) with false. cbv iota.
  destruct (w_files w !! tijera_png BASE) as [f |] eqn:Et.
  - rewrite bool_decide_eq_true_2 by done. simpl. rewrite ?Et.
    destruct f; simpl;
      try (split; [discriminate | by intros [[? | ?] _]]).
    unfold add_item; simpl.
    destruct (w_files w !! out) as [[| | | | | [| entry entries]] |] eqn:Eo; simpl;
      try (split; [intros [= <-]; split; [by right |]; split; done
                  | by intros (_ & _ & ->)]).
    split; [discriminate | intros (_ & H & _)]. by destruct (H entry entries).
  - rewrite bool_decide_eq_false_2 by (by apply is_Some_None). simpl.
    rewrite app_nil_r.
    destruct (w_files w !! out) as [[| | | | | [| entry entries]] |] eqn:Eo; simpl;
      try (split; [intros [= <-]; split; [by left |]; split; done
                  | by intros (_ & _ & ->)]).
    split; [discriminate | intros (_ & H & _)]. by destruct (H entry entries).
Qed.

Lemma compose_sheet_iff (BASE : pystr) (r2 a5r2 : Rect) (pdf1 label out : pystr)
    (w w' : World) :
  compose_sheet BASE r2 a5r2 pdf1 label out [] w = (Ok tt, w')
  <-> exists p1 p2 s1 s2,
        first_page w pdf1 = Some p1
        /\ first_page w label = Some p2
        /\ extract_high_res_image p1 rect1 260 default_quality w = (Ok s1, w)
        /\ extract_high_res_image p2 r2 260 default_quality w = (Ok s2, w)
        /\ is_empty a5r2 = false
        /\ (w_files w !! tijera_png BASE = None
            \/ w_files w !! tijera_png BASE = Some ImageFile)
        /\ (forall entry entries,
               w_files w !! out <> Some (Directory (entry :: entries)))
        /\ w' = mkWorld
                  (<[ out := PdfFile [composed_page BASE w s1 s2 a5r2] ]> (w_files w))
                  (w_console w ++ [msg_generated out]).
Proof.
  split.
  - intros H. pose proof H as H0. unfold compose_sheet in H0.
    apply bind_Ok in H0 as (s1 & w1 & H1 & H0).
    apply extract_first_page_inv in H1 as (-> & p1 & Hp1 & E1).
    apply bind_Ok in H0 as (s2 & w2 & H2 & H0).
    apply extract_first_page_inv in H2 as (-> & p2 & Hp2 & E2).
    clear H0.
    assert (is_empty a5r2 = false) as Hne.
    { destruct (compose_sheet_Ok _ _ _ _ _ _ _ _ H) as (? & ? & ? & _ & _).
      destruct (is_empty a5r2) eqn:E; [| done]. exfalso.
      unfold compose_sheet in H.
      unfold bind at 1 in H. rewrite (extract_first_page_run _ _ _ _ _ _ Hp1), E1 in H.
      unfold bind at 1 in H. rewrite (extract_first_page_run _ _ _ _ _ _ Hp2), E2 in H.
      unfold new_page in H. unfold bind at 1 in H. unfold insert_image at 1 in H.
      change (is_empty a5_rect1) with false in H. cbv iota in H.
      unfold ret at 1 in H. unfold bind at 1 in H. unfold insert_image at 1 in H.
      rewrite E in H. discriminate. }
    rewrite (compose_sheet_run _ _ _ _ _ _ _ _ _ _ _ Hp1 Hp2 E1 E2 Hne) in H.
    apply finish_sheet in H as (Ht & Ho & ->).
    exists p1, p2, s1, s2. unfold composed_page. by rewrite <- app_assoc.
  - intros (p1 & p2 & s1 & s2 & Hp1 & Hp2 & E1 & E2 & Hne & Ht & Ho & ->).
    rewrite (compose_sheet_run _ _ _ _ _ _ _ _ _ _ _ Hp1 Hp2 E1 E2 Hne).
    apply finish_sheet. split; [done |]. split; [done |].
    unfold composed_page. by rewrite <- app_assoc.
Qed.

Lemma a5_rect2_not_empty (tipo : pystr) (entry : envio_entry) :
  envio_rects !! tipo = Some entry -> is_empty (a5_rect2 entry) = false.
Proof.
  intros H. by destruct (envio_rects_lookup _ _ H) as [[_ ->] | [_ ->]].
Qed.

Lemma generate_sheet_Ok_iff (BASE tipo label out : pystr) (w w' : World) :
  generate_sheet BASE tipo label out w = (Ok None, w')
  <-> exists (entry : envio_entry) (p1 p2 : Page) (s1 s2 : Jpeg),
        envio_rects !! tipo = Some entry
        /\ first_page w (interm_pdf BASE) = Some p1
        /\ first_page w label = Some p2
        /\ extract_high_res_image p1 rect1 260 default_quality w = (Ok s1, w)
        /\ extract_high_res_image p2 (rect2 entry) 260 default_quality w = (Ok s2, w)
        /\ (w_files w !! tijera_png BASE = None
            \/ w_files w !! tijera_png BASE = Some ImageFile)
        /\ (forall entry entries,
               w_files w !! out <> Some (Directory (entry :: entries)))
        /\ w' = mkWorld
                  (delete (interm_pdf BASE)
                     (<[ out := PdfFile [composed_page BASE w s1 s2 (a5_rect2 entry)] ]>
                        (w_files w)))
                  (w_console w ++ [msg_generated out]).
Proof.
  split.
  - intros H.
    destruct (w_files w !! interm_pdf BASE) as [f1 |] eqn:E1;
      [| by rewrite generate_sheet_no_interm in H].
    destruct (w_files w !! label) as [f2 |] eqn:E2;
      [| rewrite generate_sheet_no_label in H; by rewrite ?E1].
    destruct (envio_rects !! tipo) as [entry |] eqn:E3;
      [| rewrite generate_sheet_unknown in H; by rewrite ?E1, ?E2].
    rewrite (generate_sheet_known _ _ _ _ entry) in H by (by rewrite ?E1, ?E2).
    unfold try_finally, try_except in H.
    destruct (bind _ _ w) as [[r | e] w1] eqn:Eb.
    + apply bind_Ok in Eb as ([] & w2 & Hc & Hr). injection Hr as <- <-.
      apply compose_sheet_iff in Hc
        as (p1 & p2 & s1 & s2 & Hp1 & Hp2 & Ex1 & Ex2 & Hne & Ht & Ho & ->).
      exists entry, p1, p2, s1, s2. repeat (split; [done |]).
      unfold os_remove in H. simpl in H.
      destruct (<[out:=_]> _ !! interm_pdf BASE) as [[] |]; simpl in H;
        try discriminate; by injection H as <-.
    + unfold raise in H. destruct (os_remove _ w1) as [[] ?]; discriminate.
  - intros (entry & p1 & p2 & s1 & s2 & E3 & Hp1 & Hp2 & Ex1 & Ex2 & Ht & Ho & ->).
    destruct (first_page_is_Some _ _ _ Hp1) as (d1 & Hd1).
    destruct (first_page_is_Some _ _ _ Hp2) as (d2 & Hd2).
    rewrite (generate_sheet_known _ _ _ _ entry) by (by rewrite ?Hd1, ?Hd2).
    unfold try_finally, try_except. unfold bind at 1.
    assert (compose_sheet BASE (rect2 entry) (a5_rect2 entry) (interm_pdf BASE)
              label out [] w
            = (Ok tt,
               mkWorld
                 (<[ out := PdfFile [composed_page BASE w s1 s2 (a5_rect2 entry)] ]>
                    (w_files w))
                 (w_console w ++ [msg_generated out]))) as ->.
    { apply compose_sheet_iff. exists p1, p2, s1, s2.
      repeat (split; [done |]). split; [by eapply a5_rect2_not_empty |]. done. }
    unfold ret, os_remove. simpl.
    rewrite lookup_insert. case_decide; [done |]. by rewrite Hd1.
Qed.

(** A composition that raises leaves the world as it was. *)
Lemma compose_sheet_Raise (BASE : pystr) (r2 a5r2 : Rect) (pdf1 label out : pystr)
    (w w' : World) (e : exn) :
  compose_sheet BASE r2 a5r2 pdf1 label out [] w = (Raise e, w') -> w' = w.
Proof.
  unfold compose_sheet. generalize (range y_start y_end 3) as ys. intros ys H.
  pose proof (extract_first_page_world pdf1 rect1 260 default_quality w) as E1.
  apply bind_inv in H as [(e1 & H & _) | (s1 & w1 & H1 & H)].
  { rewrite H in E1. by simpl in E1. }
  rewrite H1 in E1; simpl in E1; subst w1.
  pose proof (extract_first_page_world label r2 260 default_quality w) as E2.
  apply bind_inv in H as [(e1 & H & _) | (s2 & w2 & H2 & H)].
  { rewrite H in E2. by simpl in E2. }
  rewrite H2 in E2; simpl in E2; subst w2.
  unfold new_page in H. simpl in H.
  apply bind_inv in H as [(e1 & H & _) | (d1 & w1 & Hi1 & H)]; [discriminate |].
  injection Hi1 as <- <-.
  apply bind_inv in H as [(e1 & H & _) | (d2 & w2 & Hi2 & H)].
  { unfold insert_image, raise, ret in H.
    destruct (is_empty _); by injection H as _ <-. }
  unfold insert_image, raise, ret in Hi2. destruct (is_empty a5r2); [discriminate |].
  injection Hi2 as <- <-. simpl in H.
  unfold add_item in H; simpl in H. unfold bind at 1 in H.
  rewrite draw_cut_guide in H.
  apply bind_inv in H as [(e1 & H & _) | (b & w4 & Hb & H)]; [discriminate |].
  injection Hb as <- <-.
  apply bind_inv in H as [(e1 & H & _) | (d & w1 & Hd & H)].
  { destruct (bool_decide _); [| discriminate].
    unfold insert_image_file in H.
    repeat case_match; try discriminate; by injection H as _ <-. }
  assert (w1 = w) as ->.
  { destruct (bool_decide _); [| by injection Hd as _ <-].
    unfold insert_image_file in Hd.
    repeat case_match; try discriminate; by injection Hd as _ <-. }
  apply bind_inv in H as [(e1 & H & _) | ([] & w1 & Hs & H)]; [| discriminate].
  unfold doc_save in H. repeat case_match; try discriminate; by injection H as _ <-.
Qed.

Lemma range_from_elem (fuel : nat) (cur stop step y : Z) :
  0 < step -> stop - cur <= Z.of_nat fuel ->
  y ∈ range_from fuel cur stop step
  <-> cur <= y < stop /\ (y - cur) mod step = 0.
Proof.
  intros Hstep. revert cur. induction fuel as [| fuel IH]; intros cur Hfuel; simpl.
  - rewrite elem_of_nil. split; [done | lia].
  - destruct (Z.ltb_spec cur stop) as [Hlt | Hge].
    + rewrite elem_of_cons, IH by lia. split.
      * intros [-> | [Hy Hm]].
        -- split; [lia |]. by rewrite Z.sub_diag.
        -- split; [lia |]. replace (y - cur) with (y - (cur + step) + 1 * step) by lia.
           by rewrite Z_mod_plus_full.
      * intros [Hy Hm]. destruct (Z.eq_dec y cur) as [-> | Hne]; [by left | right].
        apply Z.mod_divide in Hm as [k Hk]; [| lia].
        assert (1 <= k) by nia.
        split; [nia |]. replace (y - (cur + step)) with ((k - 1) * step) by lia.
        apply Z_mod_mult.
    + rewrite elem_of_nil. split; [done | lia].
Qed.

Lemma range_elem (start stop step y : Z) :
  0 < step ->
  y ∈ range start stop step <-> start <= y < stop /\ (y - start) mod step = 0.
Proof. intros H. unfold range. apply range_from_elem; lia. Qed.

Lemma segments_composed_page (BASE : pystr) (w : World) (s1 s2 : Jpeg) (r : Rect) :
  segments (composed_page BASE w s1 s2 r)
  = List.map cut_segment (range y_start y_end 3).
Proof.
  unfold segments, composed_page.
  generalize (range y_start y_end 3) as ys. intros ys.
  simpl. apply segments_of_guide.
  unfold scissors. case_match; by repeat constructor.
Qed.

(** ** Paths that differ *)

Lemma png_not_pdf (BASE : pystr) : interm_png BASE <> interm_pdf BASE.
Proof.
  unfold interm_png, interm_pdf, path_join. intros H.
  apply app_inv_head in H. discriminate.
Qed.

Lemma flyer_not_png (BASE : pystr) : flyer_pdf BASE <> interm_png BASE.
Proof.
  unfold flyer_pdf, interm_png, DATA_PATH, TEMP_PATH, path_join.
  rewrite <- !app_assoc. intros H. apply app_inv_head in H. discriminate.
Qed.

Lemma flyer_not_pdf (BASE : pystr) : flyer_pdf BASE <> interm_pdf BASE.
Proof.
  unfold flyer_pdf, interm_pdf, DATA_PATH, TEMP_PATH, path_join.
  rewrite <- !app_assoc. intros H. apply app_inv_head in H. discriminate.
Qed.

(** The [try] statement of [qr_to_pdf], with its [finally] block. *)

Lemma qr_to_pdf_unfold (BASE : pystr) (mk : pystr -> outcome unit)
    (medio num url : pystr) (w : World) :
  mk (qr_url medio num url) = Ok tt ->
  (forall entries, w_files w !! interm_png BASE <> Some (Directory entries)) ->
  qr_to_pdf BASE mk medio num url w
  = let w1 := mkWorld (<[ interm_png BASE := ImageFile ]> (w_files w)) (w_console w) in
    if bool_decide (is_Some (w_files w !! flyer_pdf BASE))
    then (returned <- stamp_flyer BASE ;;
          match returned with
          | Some r => ret r
          | None => ret (Some (interm_pdf BASE))
          end) w1
    else (Ok None, mkWorld (w_files w1) (w_console w ++ [msg_no_flyer (flyer_pdf BASE)])).
Proof.
  intros Hmk Hnd. unfold qr_to_pdf. rewrite Hmk.
  unfold bind at 1. unfold lift at 1.
  unfold bind at 1. unfold Image_save_png at 1. fold (interm_png BASE).
  assert ((match w_files w !! interm_png BASE with
           | Some (Directory _) => (Raise (is_a_directory (interm_png BASE)), w)
           | _ => (Ok tt, mkWorld (<[ interm_png BASE := ImageFile ]> (w_files w))
                            (w_console w))
           end) = (Ok tt, mkWorld (<[ interm_png BASE := ImageFile ]> (w_files w))
                            (w_console w))) as ->.
  { destruct (w_files w !! interm_png BASE) as [[] |] eqn:E; try done.
    by destruct (Hnd entries). }
  unfold bind at 1. unfold os_path_exists at 1. fold (flyer_pdf BASE).
  cbn [w_files]. rewrite lookup_insert_ne by (apply not_eq_sym, flyer_not_png).
  destruct (bool_decide (is_Some (w_files w !! flyer_pdf BASE))); [| done].
  reflexivity.
Qed.

Lemma stamp_body_cases (BASE : pystr) (w1 : World) :
  w_files w1 !! interm_png BASE = Some ImageFile ->
  (exists p rest,
      w_files w1 !! flyer_pdf BASE = Some (PdfFile (p :: rest))
      /\ (forall entry entries,
             w_files w1 !! interm_pdf BASE <> Some (Directory (entry :: entries)))
      /\ (doc <- fitz_open (flyer_pdf BASE) ;;
          page <- doc_getitem doc 0 ;;
          doc <- insert_image_file doc 0 qr_rect (interm_png BASE) ;;
          doc_save doc (interm_pdf BASE) ;;;
          ret (@None (option pystr))) w1
         = (Ok None,
            mkWorld (<[ interm_pdf BASE := PdfFile (with_qr BASE p :: rest) ]>
                       (w_files w1))
              (w_console w1)))
  \/ (exists e,
         (doc <- fitz_open (flyer_pdf BASE) ;;
          page <- doc_getitem doc 0 ;;
          doc <- insert_image_file doc 0 qr_rect (interm_png BASE) ;;
          doc_save doc (interm_pdf BASE) ;;;
          ret (@None (option pystr))) w1
         = (Raise e, w1)).
Proof.
  intros Hpng.
  unfold bind, fitz_open, doc_getitem, insert_image_file, doc_save, ret, raise.
  change (is_empty qr_rect) with false. cbv iota.
  destruct (w_files w1 !! flyer_pdf BASE) as [[[| p rest] | | | | |] |] eqn:Ef;
    try (right; eexists; reflexivity).
  simpl. rewrite Hpng. simpl.
  destruct (w_files w1 !! interm_pdf BASE) as [[| | | | | [| entry entries]] |] eqn:Eo;
    try (left; exists p, rest; split; [done |]; split; [done |]; reflexivity).
  right. eexists; reflexivity.
Qed.

Lemma stamp_flyer_cases (BASE : pystr) (w1 : World) :
  w_files w1 !! interm_png BASE = Some ImageFile ->
  (exists p rest,
      w_files w1 !! flyer_pdf BASE = Some (PdfFile (p :: rest))
      /\ (forall entry entries,
             w_files w1 !! interm_pdf BASE <> Some (Directory (entry :: entries)))
      /\ stamp_flyer BASE w1
         = (Ok None,
            mkWorld (delete (interm_png BASE)
                       (<[ interm_pdf BASE := PdfFile (with_qr BASE p :: rest) ]>
                          (w_files w1)))
              (w_console w1)))
  \/ (exists e,
         stamp_flyer BASE w1
         = (Ok (Some None),
            mkWorld (delete (interm_png BASE) (w_files w1))
              (w_console w1 ++ [msg_flyer_error e]))).
Proof.
  intros Hpng. unfold stamp_flyer, try_finally, try_except.
  destruct (stamp_body_cases BASE w1 Hpng)
    as [(p & rest & Hf & Ho & ->) | (e & ->)].
  - left. exists p, rest. split; [done |]. split; [done |].
    unfold bind, os_path_exists, os_remove, ret. cbn [w_files w_console].
    rewrite lookup_insert_ne by (apply not_eq_sym, png_not_pdf).
    rewrite Hpng. rewrite bool_decide_eq_true_2 by done. cbn [w_files w_console].
    rewrite lookup_insert_ne by (apply not_eq_sym, png_not_pdf).
    by rewrite Hpng.
  - right. exists e.
    unfold bind, print, ret, os_path_exists, os_remove.
    cbn [w_files w_console]. rewrite Hpng.
    rewrite bool_decide_eq_true_2 by done. cbn [w_files w_console].
    by rewrite Hpng.
Qed.

Lemma qr_to_pdf_no_flyer (BASE : pystr) (mk : pystr -> outcome unit)
    (medio num url : pystr) (w : World) :
  mk (qr_url medio num url) = Ok tt ->
  (forall entries, w_files w !! interm_png BASE <> Some (Directory entries)) ->
  w_files w !! flyer_pdf BASE = None ->
  qr_to_pdf BASE mk medio num url w
  = (Ok None,
     mkWorld (<[ interm_png BASE := ImageFile ]> (w_files w))
       (w_console w ++ [msg_no_flyer (flyer_pdf BASE)])).
Proof.
  intros Hmk Hnd Hf. rewrite qr_to_pdf_unfold by done.
  rewrite bool_decide_eq_false_2; [done |]. rewrite Hf. by apply is_Some_None.
Qed.

Lemma qr_to_pdf_through_try (BASE : pystr) (mk : pystr -> outcome unit)
    (medio num url : pystr) (w : World) :
  mk (qr_url medio num url) = Ok tt ->
  (forall entries, w_files w !! interm_png BASE <> Some (Directory entries)) ->
  is_Some (w_files w !! flyer_pdf BASE) ->
  exists (r : option pystr) (w' : World),
    qr_to_pdf BASE mk medio num url w = (Ok r, w')
    /\ w_files w' !! interm_png BASE = None
    /\ match r with
       | Some p =>
           p = interm_pdf BASE
           /\ w_console w' = w_console w
           /\ exists doc, w_files w' = <[ interm_pdf BASE := PdfFile doc ]>
                                         (delete (interm_png BASE) (w_files w))
       | None =>
           w_files w' = delete (interm_png BASE) (w_files w)
           /\ exists e, w_console w' = w_console w ++ [msg_flyer_error e]
       end.
Proof.
  intros Hmk Hnd Hf. rewrite qr_to_pdf_unfold by done.
  rewrite bool_decide_eq_true_2 by done. cbv zeta. unfold bind at 1.
  destruct (stamp_flyer_cases BASE
              (mkWorld (<[ interm_png BASE := ImageFile ]> (w_files w)) (w_console w)))
    as [(p' & rest' & Hf' & _ & ->) | (e & ->)].
  - simpl. apply lookup_insert_eq.
  - eexists _, _. split; [reflexivity |]. simpl. split; [apply lookup_delete_eq |].
    split; [done |]. split; [done |]. eexists.
    rewrite delete_insert_ne by apply png_not_pdf.
    by rewrite delete_insert_eq.
  - eexists _, _. split; [reflexivity |]. simpl. split; [apply lookup_delete_eq |].
    split; [by rewrite delete_insert_eq | eauto].
Qed.

(** What [predict_pdf] does once the artifacts are loaded. *)

Lemma predict_pdf_unfold (BASE pdf_path : pystr) :
  predict_pdf BASE pdf_path
  = try_except (artifacts <- load_artifacts BASE ;; classify pdf_path artifacts)
      (fun e => raise (Exn RuntimeError (msg_prediction pdf_path e))).
Proof. reflexivity. Qed.

Lemma lift_world {A} (o : outcome A) (w : World) : snd (lift o w) = w.
Proof. done. Qed.

Lemma classify_world (pdf_path : pystr) (a : PyObj * PyObj * PyObj) (w : World) :
  snd (classify pdf_path a w) = w.
Proof.
  destruct a as [[m v] l]. unfold classify, bind at 1, bind at 1, pdfplumber_open.
  destruct (w_files w !! pdf_path) as [[doc | | | | |] |]; try done.
  unfold ret at 1. cbv beta iota.
  destruct (negb _); [done |].
  unfold bind, call_transform, call_predict, call_inverse_transform, getitem0,
    lift, raise, ret.
  destruct v as [| tr | |]; try done. destruct (tr _) as [X |]; [| done].
  destruct m as [pr | | |]; try done. destruct (pr X) as [pred |]; [| done].
  destruct l; try done. destruct (mapM _ pred) as [[| ? ?] |]; done.
Qed.

Lemma predict_pdf_frame (BASE pdf_path : pystr) (w w' : World)
    (r : outcome pystr) :
  predict_pdf BASE pdf_path w = (r, w') ->
  w' = w
  /\ match r with
     | Ok _ => True
     | Raise e => exists inner : exn,
                    e = Exn RuntimeError (msg_prediction pdf_path inner)
     end.
Proof.
  rewrite predict_pdf_unfold. unfold try_except, bind.
  pose proof (load_artifacts_world BASE w) as Hl.
  destruct (load_artifacts BASE w) as [[a | e] w1]; simpl in Hl; subst w1.
  - pose proof (classify_world pdf_path a w) as Hc.
    destruct (classify pdf_path a w) as [[label | e] w1]; simpl in Hc; subst w1.
    + by intros [= <- <-].
    + intros [= <- <-]. eauto.
  - intros [= <- <-]. eauto.
Qed.

(** ** The first statements of generar_etiqueta *)

Lemma discover_world (BASE : pystr) (w : World) :
  snd (generar_etiqueta_discover BASE w) = w.
Proof.
  unfold generar_etiqueta_discover, bind at 1, os_listdir.
  destruct (w_files w !! BASE) as [[| | | | | entries] |]; try done.
  destruct (List.filter is_label_name entries) as [| f fs]; [done |].
  simpl. unfold bind, ret.
  destruct (rsplit1 dot f) as [| stem ?]; [done |]. simpl.
  destruct (split1 hyphen stem) as [| a [| b [| ? ?]]]; done.
Qed.

Lemma discover_Ok (BASE : pystr) (d : discovery) (w w' : World) :
  generar_etiqueta_discover BASE w = (Ok d, w') ->
  w' = w
  /\ is_label_name (file d) = true
  /\ pdf_envio_path d = BASE </> file d
  /\ pdf_out_path d = OUT_PATH BASE </> (medio_venta d ++ num_orden d ++ lit ".pdf").
Proof.
  intros H. pose proof (discover_world BASE w) as Hw. rewrite H in Hw.
  simpl in Hw. subst w'. split; [done |]. revert H.
  unfold generar_etiqueta_discover, bind at 1, os_listdir.
  destruct (w_files w !! BASE) as [[| | | | | entries] |]; try discriminate.
  destruct (List.filter is_label_name entries) as [| f fs] eqn:Ef; [discriminate |].
  assert (is_label_name f = true) as Hf.
  { assert (In f (List.filter is_label_name entries)) as Hin by (rewrite Ef; by left).
    by apply filter_In in Hin as [_ ?]. }
  simpl. unfold bind, ret.
  destruct (rsplit1 dot f) as [| stem ?]; [discriminate |]. simpl.
  destruct (split1 hyphen stem) as [| a [| b [| ? ?]]]; try discriminate.
  by intros [= <-].
Qed.

(** ** Paths *)

Lemma out_not_temp (BASE x y : pystr) : OUT_PATH BASE </> x <> TEMP_PATH BASE </> y.
Proof.
  unfold OUT_PATH, TEMP_PATH, path_join. rewrite <- !app_assoc. intros H.
  apply app_inv_head in H. discriminate.
Qed.


(** ** print.py: the ways through generate_sheet *)

(** X1.  A call of [generate_sheet] that runs to its end had a category of
    the registry, and a first page in the promotional intermediate and in
    the label from which the two regions were extracted, with the scissors
    absent or an image.  The world after the call is then determined: the
    output holds the one composed page (the promotional image, the label,
    the cut guide and the scissors if there are any), the promotional
    intermediate is removed, and the console has one more line. *)
Theorem generate_sheet_completed (BASE tipo label out : pystr) (w w' : World) :
  generate_sheet BASE tipo label out w = (Ok None, w') ->
  exists (entry : envio_entry) (p1 p2 : Page) (s1 s2 : Jpeg),
    envio_rects !! tipo = Some entry
    /\ first_page w (interm_pdf BASE) = Some p1
    /\ first_page w label = Some p2
    /\ extract_high_res_image p1 rect1 260 default_quality w = (Ok s1, w)
    /\ extract_high_res_image p2 (rect2 entry) 260 default_quality w = (Ok s2, w)
    /\ (w_files w !! tijera_png BASE = None
        \/ w_files w !! tijera_png BASE = Some ImageFile)
    /\ w' = mkWorld
              (delete (interm_pdf BASE)
                 (<[ out := PdfFile [composed_page BASE w s1 s2 (a5_rect2 entry)] ]>
                    (w_files w)))
              (w_console w ++ [msg_generated out]).
Proof.
  intros H. apply generate_sheet_Ok_iff in H
    as (entry & p1 & p2 & s1 & s2 & He & Hp1 & Hp2 & Hs1 & Hs2 & Ht & _ & ->).
  by exists entry, p1, p2, s1, s2.
Qed.

Lemma generate_sheet_completed_witness :
  let w := Sample.ready in
  let w' := snd (generate_sheet Sample.base (lit "MercadoLibre") Sample.label_path
                   Sample.out_path w) in
  exists (entry : envio_entry) (p1 p2 : Page) (s1 s2 : Jpeg),
    envio_rects !! lit "MercadoLibre" = Some entry
    /\ first_page w (interm_pdf Sample.base) = Some p1
    /\ first_page w Sample.label_path = Some p2
    /\ extract_high_res_image p1 rect1 260 default_quality w = (Ok s1, w)
    /\ extract_high_res_image p2 (rect2 entry) 260 default_quality w = (Ok s2, w)
    /\ (w_files w !! tijera_png Sample.base = None
        \/ w_files w !! tijera_png Sample.base = Some ImageFile)
    /\ w' = mkWorld
              (delete (interm_pdf Sample.base)
                 (<[ Sample.out_path :=
                       PdfFile [composed_page Sample.base w s1 s2 (a5_rect2 entry)] ]>
                    (w_files w)))
              (w_console w ++ [msg_generated Sample.out_path]).
Proof.
  intros w w'.
  apply (generate_sheet_completed Sample.base (lit "MercadoLibre")
           Sample.label_path Sample.out_path w w').
  reflexivity.
Defined.

(** X2.  A call of [generate_sheet] that raises prints nothing and writes
    nothing: the file system is the one before the call, or the one before
    the call without the promotional intermediate. *)
Theorem generate_sheet_raise_writes_nothing (BASE tipo label out : pystr)
    (w w' : World) (e : exn) :
  generate_sheet BASE tipo label out w = (Raise e, w') ->
  w_console w' = w_console w
  /\ (w_files w' = w_files w \/ w_files w' = delete (interm_pdf BASE) (w_files w)).
Proof.
  intros H.
  destruct (w_files w !! interm_pdf BASE) as [f1 |] eqn:E1;
    [| rewrite generate_sheet_no_interm in H by done; injection H as _ <-; eauto].
  destruct (w_files w !! label) as [f2 |] eqn:E2;
    [| rewrite generate_sheet_no_label in H by (by rewrite ?E1);
       injection H as _ <-; eauto].
  destruct (envio_rects !! tipo) as [entry |] eqn:E3;
    [| rewrite generate_sheet_unknown in H; by rewrite ?E1, ?E2].
  rewrite (generate_sheet_known _ _ _ _ entry) in H by (by rewrite ?E1, ?E2).
  unfold try_finally, try_except in H.
  destruct (bind _ _ w) as [[r | e1] w1] eqn:Eb.
  - exfalso. apply bind_Ok in Eb as ([] & w2 & Hc & Hr). injection Hr as <- <-.
    apply compose_sheet_iff in Hc
      as (p1 & p2 & s1 & s2 & Hp1 & Hp2 & Ex1 & Ex2 & Hne & Ht & Ho & ->).
    destruct (first_page_is_Some _ _ _ Hp1) as (d1 & Hd1).
    unfold os_remove in H. simpl in H. rewrite lookup_insert in H.
    case_decide; [discriminate |]. rewrite Hd1 in H. discriminate.
  - apply bind_inv in Eb as [(e2 & Hc & _) | (a & w3 & _ & Hr)]; [| discriminate].
    apply compose_sheet_Raise in Hc as ->.
    unfold raise, os_remove in H. rewrite E1 in H.
    destruct f1; injection H as _ <-; simpl; eauto.
Qed.

Lemma generate_sheet_raise_writes_nothing_witness :
  let r := generate_sheet Sample.base (lit "MercadoLibre") Sample.label_path
             Sample.out_path Sample.empty_promo in
  (exists e : exn, fst r = Raise e)
  /\ w_console (snd r) = w_console Sample.empty_promo
  /\ (w_files (snd r) = w_files Sample.empty_promo
      \/ w_files (snd r) = delete (interm_pdf Sample.base) (w_files Sample.empty_promo)).
Proof.
  intros r.
  pose (e := match fst r with Raise e => e | Ok _ => Exn RuntimeError [] end).
  assert (r = (Raise e, snd r)) as H by (reflexivity).
  split; [exists e; reflexivity |].
  exact (generate_sheet_raise_writes_nothing Sample.base (lit "MercadoLibre")
           Sample.label_path Sample.out_path Sample.empty_promo (snd r) e H).
Defined.

(** X3.  An exception of [generate_sheet] is a [RuntimeError], unless the
    promotional intermediate is a directory.  In that case, with the label
    in place and a category of the registry, the removal in the [finally]
    block raises, and its [IsADirectoryError] is what the caller sees. *)
Theorem generate_sheet_raises_RuntimeError (BASE tipo label out : pystr)
    (w : World) :
  (forall (w' : World) (e : exn),
      (forall entries, w_files w !! interm_pdf BASE <> Some (Directory entries)) ->
      generate_sheet BASE tipo label out w = (Raise e, w') ->
      exn_cls e = RuntimeError)
  /\ (forall (entries : list pystr) (entry : envio_entry),
         w_files w !! interm_pdf BASE = Some (Directory entries) ->
         is_Some (w_files w !! label) ->
         envio_rects !! tipo = Some entry ->
         generate_sheet BASE tipo label out w
         = (Raise (is_a_directory (interm_pdf BASE)), w)).
Proof.
  split.
  - intros w' e Hnd H.
    destruct (w_files w !! interm_pdf BASE) as [f1 |] eqn:E1;
      [| rewrite generate_sheet_no_interm in H by done; by injection H as <- _].
    destruct (w_files w !! label) as [f2 |] eqn:E2;
      [| rewrite generate_sheet_no_label in H by (by rewrite ?E1);
         by injection H as <- _].
    destruct (envio_rects !! tipo) as [entry |] eqn:E3;
      [| rewrite generate_sheet_unknown in H; by rewrite ?E1, ?E2].
    rewrite (generate_sheet_known _ _ _ _ entry) in H by (by rewrite ?E1, ?E2).
    unfold try_finally, try_except in H.
    destruct (bind _ _ w) as [[r | e1] w1] eqn:Eb.
    + exfalso. apply bind_Ok in Eb as ([] & w2 & Hc & Hr). injection Hr as <- <-.
      apply compose_sheet_iff in Hc
        as (p1 & p2 & s1 & s2 & Hp1 & Hp2 & Ex1 & Ex2 & Hne & Ht & Ho & ->).
      destruct (first_page_is_Some _ _ _ Hp1) as (d1 & Hd1).
      unfold os_remove in H. simpl in H. rewrite lookup_insert in H.
      case_decide; [discriminate |]. rewrite Hd1 in H. discriminate.
    + apply bind_inv in Eb as [(e2 & Hc & _) | (a & w3 & _ & Hr)]; [| discriminate].
      apply compose_sheet_Raise in Hc as ->.
      unfold raise, os_remove in H. rewrite E1 in H.
      destruct f1; try (by injection H as <- _). by destruct (Hnd entries).
  - intros entries entry H1 H2 H3.
    rewrite (generate_sheet_known _ _ _ _ entry) by (by rewrite ?H1).
    unfold try_finally, try_except, compose_sheet, bind, fitz_open.
    rewrite H1. simpl. unfold os_remove. by rewrite H1.
Qed.

Lemma generate_sheet_raises_RuntimeError_witness :
  (let r := generate_sheet Sample.base (lit "MercadoLibre") Sample.label_path
              Sample.out_path Sample.empty_promo in
   exists e : exn, fst r = Raise e /\ exn_cls e = RuntimeError)
  /\ generate_sheet Sample.base (lit "MercadoLibre") Sample.label_path
       Sample.out_path Scenario.interm_is_directory
     = (Raise (is_a_directory (interm_pdf Sample.base)), Scenario.interm_is_directory).
Proof.
  split.
  - intros r.
    pose (e := match fst r with Raise e => e | Ok _ => Exn ValueError [] end).
    assert (r = (Raise e, snd r)) as H by (reflexivity).
    exists e. split; [reflexivity |].
    apply (proj1 (generate_sheet_raises_RuntimeError Sample.base (lit "MercadoLibre")
                    Sample.label_path Sample.out_path Sample.empty_promo)
             (snd r) e); [| exact H].
    intros entries. vm_compute. discriminate.
  - assert (envio_rects !! lit "MercadoLibre"
            = Some (mkEntry (Rect_of 30 140 297 600) (Rect_of 297 10 595 440))) as He
      by (reflexivity).
    apply (proj2 (generate_sheet_raises_RuntimeError Sample.base (lit "MercadoLibre")
                    Sample.label_path Sample.out_path Scenario.interm_is_directory)
             [] (mkEntry (Rect_of 30 140 297 600) (Rect_of 297 10 595 440)));
      [reflexivity | eexists; reflexivity | exact He].
Defined.

(** X4.  The cut guide of a composed sheet: its line segments are exactly
    the black vertical dashes of width 0.5 at x = 297 that go from y to
    y + 2, for the heights y = 1, 4, 7, ... with y + 2 <= 420; the last
    dash ends on the lower edge of the sheet. *)
Theorem cut_guide_geometry (BASE tipo label out : pystr) (w w' : World) :
  generate_sheet BASE tipo label out w = (Ok None, w') ->
  exists page : Page,
    w_files w' = delete (interm_pdf BASE) (<[ out := PdfFile [page] ]> (w_files w))
    /\ forall it : Item,
         it ∈ segments page
         <-> exists y : Z,
               it = LineItem (inject_Z 297, inject_Z y) (inject_Z 297, inject_Z (y + 2))
                      (0, 0, 0) (1 # 2)%Q
               /\ 1 <= y /\ y + 2 <= 420 /\ (y - 1) mod 3 = 0.
Proof.
  intros H. apply generate_sheet_Ok_iff in H
    as (entry & p1 & p2 & s1 & s2 & _ & _ & _ & _ & _ & _ & _ & ->).
  exists (composed_page BASE w s1 s2 (a5_rect2 entry)). split; [done |].
  intros it. rewrite segments_composed_page.
  rewrite list_elem_of_In, in_map_iff. split.
  - intros (y & <- & Hy). apply list_elem_of_In, range_elem in Hy; [| done].
    unfold y_start, y_end in Hy. exists y. split; [done |]. lia.
  - intros (y & -> & Hy). exists y. split; [done |].
    apply list_elem_of_In, range_elem; [done |]. unfold y_start, y_end. lia.
Qed.

Lemma cut_guide_geometry_witness :
  let w := Sample.ready in
  let w' := snd (generate_sheet Sample.base (lit "MercadoLibre") Sample.label_path
                   Sample.out_path w) in
  exists page : Page,
    w_files w' = delete (interm_pdf Sample.base)
                   (<[ Sample.out_path := PdfFile [page] ]> (w_files w))
    /\ forall it : Item,
         it ∈ segments page
         <-> exists y : Z,
               it = LineItem (inject_Z 297, inject_Z y) (inject_Z 297, inject_Z (y + 2))
                      (0, 0, 0) (1 # 2)%Q
               /\ 1 <= y /\ y + 2 <= 420 /\ (y - 1) mod 3 = 0.
Proof.
  intros w w'.
  apply (cut_guide_geometry Sample.base (lit "MercadoLibre") Sample.label_path
           Sample.out_path w w').
  reflexivity.
Defined.

(** ** flyer.py: the QR code on the flyer *)

(** X5.  Without the flyer, [qr_to_pdf] reports it on the console and
    returns [None]; the QR image it has written is left in the temporary
    directory, and nothing else changes. *)
Theorem qr_to_pdf_without_flyer (BASE : pystr) (mk : pystr -> outcome unit)
    (medio num url : pystr) (w : World) :
  mk (qr_url medio num url) = Ok tt ->
  (forall entries, w_files w !! interm_png BASE <> Some (Directory entries)) ->
  w_files w !! flyer_pdf BASE = None ->
  qr_to_pdf BASE mk medio num url w
  = (Ok None,
     mkWorld (<[ interm_png BASE := ImageFile ]> (w_files w))
       (w_console w ++ [msg_no_flyer (flyer_pdf BASE)])).
Proof. apply qr_to_pdf_no_flyer. Qed.

Lemma qr_to_pdf_without_flyer_witness :
  qr_to_pdf Sample.base Scenario.mk (lit "meli") (lit "123456") URL_WEB
    Scenario.no_flyer
  = (Ok None,
     mkWorld (<[ interm_png Sample.base := ImageFile ]> (w_files Scenario.no_flyer))
       (w_console Scenario.no_flyer ++ [msg_no_flyer (flyer_pdf Sample.base)])).
Proof.
  apply (qr_to_pdf_without_flyer Sample.base Scenario.mk (lit "meli") (lit "123456")
           URL_WEB Scenario.no_flyer).
  - reflexivity.
  - intros entries. vm_compute. discriminate.
  - reflexivity.
Defined.

(** X6.  Let the QR code be made by the library, let no directory be at
    the place of the QR image, let the flyer be a document of at least one
    page, and let no directory with entries be at the place of the
    promotional intermediate.  Then [qr_to_pdf] returns the path of the
    promotional intermediate; that file holds the flyer with the QR code
    drawn on its first page at (190, 295, 259, 364), the other pages as
    they were; the QR image is removed, nothing is printed, and the flyer
    itself is not changed. *)
Theorem qr_to_pdf_stamps_flyer (BASE : pystr) (mk : pystr -> outcome unit)
    (medio num url : pystr) (p : Page) (rest : Document) (w : World) :
  mk (qr_url medio num url) = Ok tt ->
  (forall entries, w_files w !! interm_png BASE <> Some (Directory entries)) ->
  w_files w !! flyer_pdf BASE = Some (PdfFile (p :: rest)) ->
  (forall entry entries,
      w_files w !! interm_pdf BASE <> Some (Directory (entry :: entries))) ->
  qr_to_pdf BASE mk medio num url w
  = (Ok (Some (interm_pdf BASE)),
     mkWorld (<[ interm_pdf BASE := PdfFile (with_qr BASE p :: rest) ]>
                (delete (interm_png BASE) (w_files w)))
       (w_console w)).
Proof.
  intros Hmk Hnd Hf Ho. rewrite qr_to_pdf_unfold by done.
  rewrite bool_decide_eq_true_2 by (by rewrite Hf). cbv zeta.
  unfold bind at 1.
  destruct (stamp_flyer_cases BASE
              (mkWorld (<[ interm_png BASE := ImageFile ]> (w_files w)) (w_console w)))
    as [(p' & rest' & Hf' & _ & ->) | (e & He)].
  - simpl. apply lookup_insert_eq.
  - simpl in Hf'. rewrite lookup_insert_ne in Hf' by (apply not_eq_sym, flyer_not_png).
    rewrite Hf in Hf'. injection Hf' as <- <-. unfold ret. simpl. f_equal. f_equal.
    rewrite delete_insert_ne by apply png_not_pdf.
    by rewrite delete_insert_eq.
  - exfalso. destruct (stamp_body_cases BASE
      (mkWorld (<[ interm_png BASE := ImageFile ]> (w_files w)) (w_console w)))
      as [(p' & rest' & _ & _ & Hb) | (e' & Hb)]; [apply lookup_insert_eq | |].
    + unfold stamp_flyer, try_finally, try_except in He. rewrite Hb in He.
      revert He. unfold bind, os_path_exists, os_remove, ret. cbn [w_files w_console].
      rewrite lookup_insert_ne by (apply not_eq_sym, png_not_pdf).
      rewrite lookup_insert_eq. rewrite bool_decide_eq_true_2 by done.
      cbn [w_files w_console].
      rewrite lookup_insert_ne by (apply not_eq_sym, png_not_pdf).
      rewrite lookup_insert_eq. discriminate.
    + revert Hb.
      unfold bind, fitz_open, doc_getitem, insert_image_file, doc_save, ret, raise.
      change (is_empty qr_rect) with false. cbv iota. cbn [w_files w_console].
      rewrite lookup_insert_ne by (apply not_eq_sym, flyer_not_png). rewrite Hf.
      simpl. rewrite lookup_insert_eq. simpl.
      rewrite lookup_insert_ne by apply png_not_pdf.
      destruct (w_files w !! interm_pdf BASE) as [[| | | | | [| entry entries]] |] eqn:Eo;
        try discriminate.
      by destruct (Ho entry entries).
Qed.

Lemma qr_to_pdf_stamps_flyer_witness :
  qr_to_pdf Sample.base Scenario.mk (lit "meli") (lit "123456") URL_WEB Scenario.shop
  = (Ok (Some (interm_pdf Sample.base)),
     mkWorld (<[ interm_pdf Sample.base :=
                   PdfFile [with_qr Sample.base Sample.promo_page] ]>
                (delete (interm_png Sample.base) (w_files Scenario.shop)))
       (w_console Scenario.shop)).
Proof.
  apply (qr_to_pdf_stamps_flyer Sample.base Scenario.mk (lit "meli") (lit "123456")
           URL_WEB Sample.promo_page [] Scenario.shop).
  - reflexivity.
  - intros entries. vm_compute. discriminate.
  - reflexivity.
  - intros entry entries. vm_compute. discriminate.
Defined.

(** X7.  Let the QR code be made by the library and let no directory be
    at the place of the QR image, so that the image is saved.  When the
    flyer then exists, whatever it is, [qr_to_pdf] does not raise and does
    not leave the QR image behind: what goes wrong inside the [try] block
    is caught.  It returns either the path of the promotional
    intermediate, which it has written without printing anything, or
    [None] after one line on the console, with no file written. *)
Theorem qr_to_pdf_with_flyer (BASE : pystr) (mk : pystr -> outcome unit)
    (medio num url : pystr) (w : World) :
  mk (qr_url medio num url) = Ok tt ->
  (forall entries, w_files w !! interm_png BASE <> Some (Directory entries)) ->
  is_Some (w_files w !! flyer_pdf BASE) ->
  exists (r : option pystr) (w' : World),
    qr_to_pdf BASE mk medio num url w = (Ok r, w')
    /\ w_files w' !! interm_png BASE = None
    /\ match r with
       | Some p =>
           p = interm_pdf BASE
           /\ w_console w' = w_console w
           /\ exists doc, w_files w' = <[ interm_pdf BASE := PdfFile doc ]>
                                         (delete (interm_png BASE) (w_files w))
       | None =>
           w_files w' = delete (interm_png BASE) (w_files w)
           /\ exists e, w_console w' = w_console w ++ [msg_flyer_error e]
       end.
Proof. apply qr_to_pdf_through_try. Qed.

Lemma qr_to_pdf_with_flyer_witness :
  exists (r : option pystr) (w' : World),
    qr_to_pdf Sample.base Scenario.mk (lit "meli") (lit "123456") URL_WEB
      Scenario.empty_flyer = (Ok r, w')
    /\ w_files w' !! interm_png Sample.base = None
    /\ match r with
       | Some p =>
           p = interm_pdf Sample.base
           /\ w_console w' = w_console Scenario.empty_flyer
           /\ exists doc, w_files w' = <[ interm_pdf Sample.base := PdfFile doc ]>
                                         (delete (interm_png Sample.base)
                                            (w_files Scenario.empty_flyer))
       | None =>
           w_files w' = delete (interm_png Sample.base) (w_files Scenario.empty_flyer)
           /\ exists e, w_console w' = w_console Scenario.empty_flyer ++ [msg_flyer_error e]
       end.
Proof.
  apply (qr_to_pdf_with_flyer Sample.base Scenario.mk (lit "meli") (lit "123456")
           URL_WEB Scenario.empty_flyer).
  - reflexivity.
  - intros entries. vm_compute. discriminate.
  - eexists; reflexivity.
Defined.

(** ** generate.py: the classifier *)

(** X8.  [predict_pdf] changes neither a file nor the console, and every
    exception it raises is a [RuntimeError] whose message is that of the
    cause with the prediction prefix and the path put before it. *)
Theorem predict_pdf_reads_only (BASE pdf_path : pystr) (w w' : World)
    (r : outcome pystr) :
  predict_pdf BASE pdf_path w = (r, w') ->
  w' = w
  /\ match r with
     | Ok _ => True
     | Raise e => exists inner : exn,
                    e = Exn RuntimeError (msg_prediction pdf_path inner)
     end.
Proof. apply predict_pdf_frame. Qed.

Lemma predict_pdf_reads_only_witness :
  let r := predict_pdf Sample.base Sample.scan_path Sample.scan_with_model in
  snd r = Sample.scan_with_model
  /\ match fst r with
     | Ok _ => True
     | Raise e => exists inner : exn,
                    e = Exn RuntimeError (msg_prediction Sample.scan_path inner)
     end.
Proof.
  intros r.
  apply (predict_pdf_reads_only Sample.base Sample.scan_path Sample.scan_with_model
           (snd r) (fst r)).
  reflexivity.
Defined.

(** X9.  A label that [predict_pdf] returns is one of the classes of the
    stored label encoder, and the classified file is a document whose
    joined text is not blank. *)
Theorem predict_pdf_returns_known_class (BASE pdf_path label : pystr)
    (w w' : World) :
  predict_pdf BASE pdf_path w = (Ok label, w') ->
  exists (classes : list pystr) (doc : Document),
    w_files w !! (MODEL_PATH BASE </> lit "label_encoder.pkl")
    = Some (PickleFile (ObjLabelEncoder classes))
    /\ label ∈ classes
    /\ w_files w !! pdf_path = Some (PdfFile doc)
    /\ strip (joined_text doc) <> [].
Proof.
  rewrite predict_pdf_unfold. unfold try_except. intros H.
  destruct (bind _ _ w) as [[l0 | e] w1] eqn:Hb; [| discriminate].
  injection H as -> ->.
  apply bind_Ok in Hb as ([[m v] l] & w1 & Ha & Hc).
  pose proof (load_artifacts_world BASE w) as Hw. rewrite Ha in Hw. simpl in Hw.
  subst w1.
  assert (w_files w !! (MODEL_PATH BASE </> lit "label_encoder.pkl")
          = Some (PickleFile l)) as Hl.
  { revert Ha.
    unfold load_artifacts, try_except_OSError, bind, joblib_load, ret, raise.
    destruct (w_files w !! (MODEL_PATH BASE </> lit "modelo_svm.pkl")) as [[] |];
      try discriminate.
    destruct (w_files w !! (MODEL_PATH BASE </> lit "vectorizer.pkl")) as [[] |];
      try discriminate.
    destruct (w_files w !! (MODEL_PATH BASE </> lit "label_encoder.pkl")) as [[] |];
      try discriminate.
    congruence. }
  unfold classify in Hc.
  apply bind_Ok in Hc as (text & w1 & Ht & Hc).
  unfold bind, pdfplumber_open, ret in Ht.
  destruct (w_files w !! pdf_path) as [[doc | | | | |] |]; try discriminate.
  fold (joined_text doc) in Ht. injection Ht as <- <-.
  destruct (strip (joined_text doc)) as [| c t] eqn:Et; [discriminate |].
  simpl in Hc.
  apply bind_Ok in Hc as (X & w1 & _ & Hc).
  apply bind_Ok in Hc as (pred & w2 & _ & Hc).
  apply bind_Ok in Hc as (labels & w3 & Hi & Hc).
  unfold call_inverse_transform in Hi. destruct l as [| | classes |]; try discriminate.
  exists classes, doc. split; [done |]. split; [| split; [done | by rewrite Et]].
  destruct (mapM _ pred) as [ls |] eqn:Em; [| discriminate].
  injection Hi as <- _. destruct ls as [| l1 ls]; [discriminate |].
  injection Hc as <- _.
  destruct pred as [| i pred]; [discriminate |]. simpl in Em.
  destruct (classes !! i) as [c1 |] eqn:Ei; [| discriminate]. simpl in Em.
  destruct (mapM _ pred); [| discriminate]. simpl in Em. injection Em as <- _.
  by eapply list_elem_of_lookup_2.
Qed.

Lemma predict_pdf_returns_known_class_witness :
  exists (classes : list pystr) (doc : Document),
    w_files Scenario.shop !! (MODEL_PATH Sample.base </> lit "label_encoder.pkl")
    = Some (PickleFile (ObjLabelEncoder classes))
    /\ lit "CorreoArg" ∈ classes
    /\ w_files Scenario.shop !! Sample.label_path = Some (PdfFile doc)
    /\ strip (joined_text doc) <> [].
Proof.
  apply (predict_pdf_returns_known_class Sample.base Sample.label_path
           (lit "CorreoArg") Scenario.shop Scenario.shop).
  reflexivity.
Defined.

(** X10.  The artifacts are loaded in the order model, vectorizer, label
    encoder, and the first one that is missing decides the error: a
    [RuntimeError] that wraps the load error, which in turn wraps the
    missing-file error of that artifact.  The document to classify is not
    looked at. *)
Theorem predict_pdf_missing_artifact (BASE pdf_path : pystr) (w : World) :
  let model := MODEL_PATH BASE </> lit "modelo_svm.pkl" in
  let vectorizer := MODEL_PATH BASE </> lit "vectorizer.pkl" in
  let label_encoder := MODEL_PATH BASE </> lit "label_encoder.pkl" in
  let failure (p : pystr) : outcome pystr * World :=
    (Raise (Exn RuntimeError
              (msg_prediction pdf_path
                 (Exn RuntimeError (msg_load (no_such_file p))))), w) in
  (w_files w !! model = None -> predict_pdf BASE pdf_path w = failure model)
  /\ (forall m, w_files w !! model = Some (PickleFile m) ->
                w_files w !! vectorizer = None ->
                predict_pdf BASE pdf_path w = failure vectorizer)
  /\ (forall m v, w_files w !! model = Some (PickleFile m) ->
                  w_files w !! vectorizer = Some (PickleFile v) ->
                  w_files w !! label_encoder = None ->
                  predict_pdf BASE pdf_path w = failure label_encoder).
Proof.
  cbv zeta. rewrite predict_pdf_unfold.
  unfold try_except, load_artifacts, try_except_OSError, bind, joblib_load, raise.
  split; [| split].
  - by intros ->.
  - by intros m -> ->.
  - by intros m v -> -> ->.
Qed.

Lemma predict_pdf_missing_artifact_witness :
  let model := MODEL_PATH Sample.base </> lit "modelo_svm.pkl" in
  let vectorizer := MODEL_PATH Sample.base </> lit "vectorizer.pkl" in
  let label_encoder := MODEL_PATH Sample.base </> lit "label_encoder.pkl" in
  let w1 := Sample.scan_no_model in
  let w2 := mkWorld (<[ model := PickleFile Sample.svc ]> (w_files w1)) [] in
  let w3 := mkWorld (<[ vectorizer := PickleFile Sample.vec ]> (w_files w2)) [] in
  let failure (p : pystr) (w : World) : outcome pystr * World :=
    (Raise (Exn RuntimeError
              (msg_prediction Sample.scan_path
                 (Exn RuntimeError (msg_load (no_such_file p))))), w) in
  predict_pdf Sample.base Sample.scan_path w1 = failure model w1
  /\ predict_pdf Sample.base Sample.scan_path w2 = failure vectorizer w2
  /\ predict_pdf Sample.base Sample.scan_path w3 = failure label_encoder w3.
Proof.
  intros model vectorizer label_encoder w1 w2 w3 failure.
  split; [| split].
  - apply (proj1 (predict_pdf_missing_artifact Sample.base Sample.scan_path w1)).
    reflexivity.
  - apply (proj1 (proj2 (predict_pdf_missing_artifact Sample.base Sample.scan_path w2))
             Sample.svc); reflexivity.
  - apply (proj2 (proj2 (predict_pdf_missing_artifact Sample.base Sample.scan_path w3))
             Sample.svc Sample.vec); reflexivity.
Defined.

(** X11.  The classifier and the training agree on which documents have no
    text, although they join the pages differently ([filter(None, ...)]
    against [or ""]): the joined and trimmed text is empty exactly when
    every page has no text or only white space. *)
Theorem empty_text_agreement (doc : Document) :
  (strip (joined_pages doc) = []
   <-> Forall (fun page => blank (or_empty (page_text page))) doc)
  /\ (strip (joined_text doc) = [] <-> strip (joined_pages doc) = []).
Proof.
  assert (strip (joined_pages doc) = []
          <-> Forall (fun page => blank (or_empty (page_text page))) doc) as H1.
  { unfold joined_pages. rewrite strip_nil, blank_join. by rewrite Forall_map. }
  split; [done |]. rewrite H1.
  unfold joined_text. rewrite strip_nil, blank_join, filter_none_blank.
  by rewrite Forall_map.
Qed.

(** ** generate.py: the pipeline *)

Section PipelineFacts.

Variable BASE : pystr.
Variable mk : pystr -> outcome unit.
Variable lpstat : World -> lpstat_result * World.
Variable lp : pystr -> World -> lp_result * World.
Variable move : pystr -> pystr -> M unit.

(** What is left of [generar_etiqueta] once the label is classified. *)
Lemma generar_etiqueta_classified (d : discovery) (tipo : pystr) (w : World) :
  generar_etiqueta_discover BASE w = (Ok d, w) ->
  predict_pdf BASE (pdf_envio_path d) w = (Ok tipo, w) ->
  generar_etiqueta BASE mk lpstat lp move w
  = (qr_to_pdf BASE mk (medio_venta d) (num_orden d) URL_WEB ;;;
     generate_sheet BASE tipo (pdf_envio_path d) (pdf_out_path d) ;;;
     imprimir lpstat lp (pdf_out_path d) ;;;
     move (pdf_envio_path d) OUT_DIR) w.
Proof.
  intros Hd Hp. unfold generar_etiqueta. unfold bind at 1. rewrite Hd.
  unfold bind at 1. by rewrite Hp.
Qed.

(** X12.  Unless a label is found in the base directory and classified,
    [generar_etiqueta] raises with the world as it was: no file is
    written and nothing is printed. *)
Theorem generar_etiqueta_aborts_early (w : World) :
  (forall d tipo, generar_etiqueta_discover BASE w = (Ok d, w) ->
                  predict_pdf BASE (pdf_envio_path d) w <> (Ok tipo, w)) ->
  exists e : exn, generar_etiqueta BASE mk lpstat lp move w = (Raise e, w).
Proof.
  intros Hno. unfold generar_etiqueta. unfold bind at 1.
  pose proof (discover_world BASE w) as Hw.
  destruct (generar_etiqueta_discover BASE w) as [[d | e] w1] eqn:Hd;
    simpl in Hw; subst w1; [| eauto].
  unfold bind at 1.
  destruct (predict_pdf BASE (pdf_envio_path d) w) as [[tipo | e] w1] eqn:Hp.
  - destruct (predict_pdf_frame _ _ _ _ _ Hp) as [-> _].
    by destruct (Hno d tipo eq_refl).
  - destruct (predict_pdf_frame _ _ _ _ _ Hp) as [-> _]. eauto.
Qed.

(** X13.  Printing is best effort.  The only exception that leaves the
    printing stage is one of [lp] that is no [SubprocessError]; when
    [lpstat] reports no default destination, [lp] is not run and the user
    is told to print by hand; when [lpstat] itself fails, the failure is
    printed and [lp] is run all the same. *)
Theorem imprimir_best_effort (out : pystr) (w : World) :
  (forall (e : exn) (w' : World),
      imprimir lpstat lp out w = (Raise e, w') ->
      exists w1, lp out w1 = (LpOtherError e, w'))
  /\ (forall (stdout : pystr) (w1 : World),
         lpstat w = (LpstatOut stdout, w1) ->
         strip stdout = no_default_printer ->
         imprimir lpstat lp out w
         = (Ok tt, mkWorld (w_files w1) (w_console w1 ++ [msg_no_printer out])))
  /\ (forall (msg : pystr) (w1 : World),
         lpstat w = (LpstatError msg, w1) ->
         let w2 := mkWorld (w_files w1) (w_console w1 ++ [msg_lpstat_error msg]) in
         imprimir lpstat lp out w
         = match lp out w2 with
           | (LpDone, w3) => (Ok tt, w3)
           | (LpSubprocessError m, w3) =>
               (Ok tt, mkWorld (w_files w3) (w_console w3 ++ [msg_lp_error out m]))
           | (LpOtherError e, w3) => (Raise e, w3)
           end).
Proof.
  split; [| split].
  - intros e w'. unfold imprimir, bind at 1.
    destruct (lpstat w) as [[stdout | msg] w1].
    + destruct (negb _).
      * destruct (lp out w1) as [[| m | e1] w2] eqn:El; try discriminate.
        intros [= <- <-]. eauto.
      * discriminate.
    + unfold bind, print, ret. simpl.
      destruct (lp out _) as [[| m | e1] w2] eqn:El; try discriminate.
      intros [= <- <-]. eauto.
  - intros stdout w1 Hl Hs. unfold imprimir, bind at 1. rewrite Hl, Hs.
    by rewrite bool_decide_eq_true_2.
  - intros msg w1 Hl. unfold imprimir, bind at 1. rewrite Hl.
    unfold bind, print, ret. simpl. by destruct (lp out _) as [[| m | e1] w2].
Qed.

(** X14.  The value of [generate_sheet] is not looked at: when the
    classifier answers with a category the registry does not know, the
    pipeline prints the complaint and goes on to print the output file,
    which this run has not written, and to move the input away. *)
Theorem generar_etiqueta_ignores_soft_failure (d : discovery) (tipo : pystr)
    (r : option pystr) (w w1 : World) :
  generar_etiqueta_discover BASE w = (Ok d, w) ->
  predict_pdf BASE (pdf_envio_path d) w = (Ok tipo, w) ->
  envio_rects !! tipo = None ->
  qr_to_pdf BASE mk (medio_venta d) (num_orden d) URL_WEB w = (Ok r, w1) ->
  is_Some (w_files w1 !! interm_pdf BASE) ->
  is_Some (w_files w1 !! pdf_envio_path d) ->
  generar_etiqueta BASE mk lpstat lp move w
  = (imprimir lpstat lp (pdf_out_path d) ;;; move (pdf_envio_path d) OUT_DIR)
      (mkWorld (w_files w1) (w_console w1 ++ [msg_unsupported tipo])).
Proof.
  intros Hd Hp Ht Hq H1 H2. rewrite (generar_etiqueta_classified d tipo) by done.
  unfold bind at 1. rewrite Hq. unfold bind at 1.
  by rewrite generate_sheet_unknown.
Qed.

(** X15.  Without the flyer, [qr_to_pdf] writes no promotional
    intermediate and its [None] is not looked at either: [generate_sheet]
    runs on whatever intermediate an earlier run left, and with none it
    raises; the QR image stays in the temporary directory. *)
Theorem generar_etiqueta_without_flyer (d : discovery) (tipo : pystr) (w : World) :
  generar_etiqueta_discover BASE w = (Ok d, w) ->
  predict_pdf BASE (pdf_envio_path d) w = (Ok tipo, w) ->
  mk (qr_url (medio_venta d) (num_orden d) URL_WEB) = Ok tt ->
  (forall entries, w_files w !! interm_png BASE <> Some (Directory entries)) ->
  w_files w !! flyer_pdf BASE = None ->
  let w1 := mkWorld (<[ interm_png BASE := ImageFile ]> (w_files w))
              (w_console w ++ [msg_no_flyer (flyer_pdf BASE)]) in
  generar_etiqueta BASE mk lpstat lp move w
  = (generate_sheet BASE tipo (pdf_envio_path d) (pdf_out_path d) ;;;
     imprimir lpstat lp (pdf_out_path d) ;;;
     move (pdf_envio_path d) OUT_DIR) w1
  /\ w_files w1 !! interm_pdf BASE = w_files w !! interm_pdf BASE
  /\ (w_files w !! interm_pdf BASE = None ->
      generar_etiqueta BASE mk lpstat lp move w
      = (Raise (Exn RuntimeError (msg_no_interm (interm_pdf BASE))), w1)).
Proof.
  intros Hd Hp Hmk Hnd Hf w1.
  assert (generar_etiqueta BASE mk lpstat lp move w
          = (generate_sheet BASE tipo (pdf_envio_path d) (pdf_out_path d) ;;;
             imprimir lpstat lp (pdf_out_path d) ;;;
             move (pdf_envio_path d) OUT_DIR) w1) as Heq.
  { rewrite (generar_etiqueta_classified d tipo) by done.
    unfold bind at 1. by rewrite qr_to_pdf_no_flyer. }
  assert (w_files w1 !! interm_pdf BASE = w_files w !! interm_pdf BASE) as Hl
    by (subst w1; simpl; by rewrite lookup_insert_ne by apply png_not_pdf).
  split; [done |]. split; [done |]. intros Hnone. rewrite Heq.
  unfold bind at 1. rewrite generate_sheet_no_interm; [done |]. by rewrite Hl.
Qed.

(** X16.  When the flyer is stamped and the sheet composed, the pipeline
    goes on to print and move with the output file written as a document
    of one page, and with neither the QR image nor the promotional
    intermediate left in the temporary directory. *)
Theorem generar_etiqueta_leaves_no_temp (d : discovery) (tipo : pystr)
    (r : option pystr) (w w1 w2 : World) :
  generar_etiqueta_discover BASE w = (Ok d, w) ->
  predict_pdf BASE (pdf_envio_path d) w = (Ok tipo, w) ->
  mk (qr_url (medio_venta d) (num_orden d) URL_WEB) = Ok tt ->
  (forall entries, w_files w !! interm_png BASE <> Some (Directory entries)) ->
  is_Some (w_files w !! flyer_pdf BASE) ->
  qr_to_pdf BASE mk (medio_venta d) (num_orden d) URL_WEB w = (Ok r, w1) ->
  generate_sheet BASE tipo (pdf_envio_path d) (pdf_out_path d) w1 = (Ok None, w2) ->
  generar_etiqueta BASE mk lpstat lp move w
  = (imprimir lpstat lp (pdf_out_path d) ;;; move (pdf_envio_path d) OUT_DIR) w2
  /\ w_files w2 !! interm_pdf BASE = None
  /\ w_files w2 !! interm_png BASE = None
  /\ exists page : Page, w_files w2 !! pdf_out_path d = Some (PdfFile [page]).
Proof.
  intros Hd Hp Hmk Hnd Hf Hq Hg. split.
  { rewrite (generar_etiqueta_classified d tipo) by done.
    unfold bind at 1. rewrite Hq. unfold bind at 1. by rewrite Hg. }
  destruct (qr_to_pdf_through_try BASE mk (medio_venta d) (num_orden d) URL_WEB w
              Hmk Hnd Hf) as (r' & w1' & Hq' & Hpng & _).
  rewrite Hq in Hq'. injection Hq' as <- <-.
  destruct (discover_Ok _ _ _ _ Hd) as (_ & _ & _ & Hout).
  apply generate_sheet_Ok_iff in Hg
    as (entry & p1 & p2 & s1 & s2 & _ & _ & _ & _ & _ & _ & _ & ->).
  cbn [w_files]. split; [apply lookup_delete_eq |].
  assert (pdf_out_path d <> interm_pdf BASE) as Ho1
    by (rewrite Hout; apply out_not_temp).
  assert (pdf_out_path d <> interm_png BASE) as Ho2
    by (rewrite Hout; apply out_not_temp).
  split.
  - rewrite lookup_delete_ne by (apply not_eq_sym, png_not_pdf).
    by rewrite lookup_insert_ne.
  - eexists. rewrite lookup_delete_ne by done. apply lookup_insert_eq.
Qed.

End PipelineFacts.

Lemma generar_etiqueta_aborts_early_witness :
  exists e : exn,
    generar_etiqueta Sample.base Scenario.mk Scenario.lpstat Scenario.lp Scenario.move
      Scenario.unclassified
    = (Raise e, Scenario.unclassified).
Proof.
  apply (generar_etiqueta_aborts_early Sample.base Scenario.mk Scenario.lpstat
           Scenario.lp Scenario.move Scenario.unclassified).
  intros d tipo Hd Hp.
  apply (f_equal fst) in Hd. vm_compute in Hd. injection Hd as <-.
  apply (f_equal fst) in Hp. vm_compute in Hp. discriminate.
Defined.

Lemma imprimir_best_effort_witness :
  let out := Sample.out_path in
  let w := Scenario.shop in
  let missing := Exn FileNotFoundError (lit "lp") in
  let lpstat_fails (w : World) := (LpstatError (lit "lpstat"), w) in
  let lp_fails (p : pystr) (w : World) := (LpOtherError missing, w) in
  imprimir Scenario.lpstat Scenario.lp out w
  = (Ok tt, mkWorld (w_files w) (w_console w ++ [msg_no_printer out]))
  /\ imprimir lpstat_fails Scenario.lp out w
     = (Ok tt, mkWorld (w_files w) (w_console w ++ [msg_lpstat_error (lit "lpstat")]))
  /\ exists w1 : World,
       lp_fails out w1
       = (LpOtherError missing,
          mkWorld (w_files w) (w_console w ++ [msg_lpstat_error (lit "lpstat")])).
Proof.
  intros out w missing lpstat_fails lp_fails.
  split; [| split].
  - apply (proj1 (proj2 (imprimir_best_effort Scenario.lpstat Scenario.lp out w))
             (lit "no system default destination" ++ [10%N]) w);
      reflexivity.
  - apply (proj2 (proj2 (imprimir_best_effort lpstat_fails Scenario.lp out w))
             (lit "lpstat") w).
    reflexivity.
  - apply (proj1 (imprimir_best_effort lpstat_fails lp_fails out w) missing).
    reflexivity.
Defined.

Lemma generar_etiqueta_ignores_soft_failure_witness :
  let w := Scenario.new_carrier in
  let d := mkDiscovery (lit "meli-123456.pdf") (lit "meli") (lit "123456")
             Sample.label_path Sample.out_path in
  let w1 := snd (qr_to_pdf Sample.base Scenario.mk (lit "meli") (lit "123456")
                   URL_WEB w) in
  generar_etiqueta Sample.base Scenario.mk Scenario.lpstat Scenario.lp Scenario.move w
  = (imprimir Scenario.lpstat Scenario.lp (pdf_out_path d) ;;;
     Scenario.move (pdf_envio_path d) OUT_DIR)
      (mkWorld (w_files w1) (w_console w1 ++ [msg_unsupported (lit "Andreani")])).
Proof.
  intros w d w1.
  apply (generar_etiqueta_ignores_soft_failure Sample.base Scenario.mk Scenario.lpstat
           Scenario.lp Scenario.move d (lit "Andreani")
           (Some (interm_pdf Sample.base)) w w1).
  - reflexivity.
  - reflexivity.
  - reflexivity.
  - reflexivity.
  - eexists; reflexivity.
  - eexists; reflexivity.
Defined.

Lemma generar_etiqueta_without_flyer_witness :
  let w := Scenario.no_flyer in
  let d := mkDiscovery (lit "meli-123456.pdf") (lit "meli") (lit "123456")
             Sample.label_path Sample.out_path in
  let w1 := mkWorld (<[ interm_png Sample.base := ImageFile ]> (w_files w))
              (w_console w ++ [msg_no_flyer (flyer_pdf Sample.base)]) in
  generar_etiqueta Sample.base Scenario.mk Scenario.lpstat Scenario.lp Scenario.move w
  = (Raise (Exn RuntimeError (msg_no_interm (interm_pdf Sample.base))), w1).
Proof.
  intros w d w1.
  apply (proj2 (proj2 (generar_etiqueta_without_flyer Sample.base Scenario.mk
                         Scenario.lpstat Scenario.lp Scenario.move d
                         (lit "CorreoArg") w
                         ltac:(reflexivity)
                         ltac:(reflexivity)
                         ltac:(reflexivity)
                         ltac:(intros entries; vm_compute; discriminate)
                         ltac:(reflexivity)))).
  reflexivity.
Defined.

Lemma generar_etiqueta_leaves_no_temp_witness :
  let w := Scenario.shop in
  let d := mkDiscovery (lit "meli-123456.pdf") (lit "meli") (lit "123456")
             Sample.label_path Sample.out_path in
  let w1 := snd (qr_to_pdf Sample.base Scenario.mk (lit "meli") (lit "123456")
                   URL_WEB w) in
  let w2 := snd (generate_sheet Sample.base (lit "CorreoArg") Sample.label_path
                   Sample.out_path w1) in
  generar_etiqueta Sample.base Scenario.mk Scenario.lpstat Scenario.lp Scenario.move w
  = (imprimir Scenario.lpstat Scenario.lp (pdf_out_path d) ;;;
     Scenario.move (pdf_envio_path d) OUT_DIR) w2
  /\ w_files w2 !! interm_pdf Sample.base = None
  /\ w_files w2 !! interm_png Sample.base = None
  /\ exists page : Page, w_files w2 !! pdf_out_path d = Some (PdfFile [page]).
Proof.
  intros w d w1 w2.
  apply (generar_etiqueta_leaves_no_temp Sample.base Scenario.mk Scenario.lpstat
           Scenario.lp Scenario.move d (lit "CorreoArg")
           (Some (interm_pdf Sample.base)) w w1 w2).
  - reflexivity.
  - reflexivity.
  - reflexivity.
  - intros entries. vm_compute. discriminate.
  - eexists; reflexivity.
  - reflexivity.
  - reflexivity.
Defined.

(** ** train.py: the training data *)

(** X17.  [load_stopwords] reads the file without changing anything and
    returns its lines trimmed, the empty ones dropped, in the order of the
    file: every stop word begins and ends with a character that is no
    white space. *)
Theorem load_stopwords_clean (file_path : pystr) (lines : list pystr) (w : World) :
  w_files w !! file_path = Some (TextFile lines) ->
  exists stopwords : list pystr,
    load_stopwords file_path w = (Ok stopwords, w)
    /\ stopwords = List.filter truthy (List.map strip lines)
    /\ Forall trimmed stopwords.
Proof.
  intros H. eexists. unfold load_stopwords, bind, open_text, ret. rewrite H.
  split; [reflexivity |].
  rewrite map_filter_strip.
  split; [done |].
  apply Forall_forall. intros sw Hsw.
  apply list_elem_of_In, filter_In in Hsw as [Hin Ht].
  apply in_map_iff in Hin as (line & <- & _).
  apply strip_trimmed. by apply truthy_true.
Qed.

Lemma load_stopwords_clean_witness :
  exists stopwords : list pystr,
    load_stopwords (SWORDS_FILE Sample.base) Sample.training
    = (Ok stopwords, Sample.training)
    /\ stopwords
       = List.filter truthy (List.map strip [lit "Envios "; lit " "; lit "de"])
    /\ Forall trimmed stopwords.
Proof.
  apply (load_stopwords_clean (SWORDS_FILE Sample.base)
           [lit "Envios "; lit " "; lit "de"] Sample.training).
  reflexivity.
Defined.

(** X18.  [extract_text_from_pdf] changes nothing, and the text it returns
    is empty or begins and ends with a character that is no white
    space. *)
Theorem extract_text_trimmed (pdf_path text : pystr) (w w' : World) :
  extract_text_from_pdf pdf_path w = (Ok text, w') ->
  w' = w
  /\ document_text w pdf_path = Some text
  /\ (text = [] \/ trimmed text).
Proof.
  unfold extract_text_from_pdf, bind, pdfplumber_open, ret, document_text.
  destruct (w_files w !! pdf_path) as [[doc | | | | | ] |]; try discriminate.
  fold (joined_pages doc). intros [= <- <-]. split; [done |]. split; [done |].
  destruct (strip (joined_pages doc)) eqn:E; [by left | right].
  rewrite <- E. apply strip_trimmed. by rewrite E.
Qed.

Lemma extract_text_trimmed_witness :
  let p := DATA_PATH Sample.base </> lit "labelsMl" </> lit "a.pdf" in
  document_text Sample.training p = Some (lit "Mercado Envios  Flex")
  /\ (lit "Mercado Envios  Flex" = [] \/ trimmed (lit "Mercado Envios  Flex")).
Proof.
  intros p.
  apply (proj2 (extract_text_trimmed p (lit "Mercado Envios  Flex")
                  Sample.training Sample.training ltac:(reflexivity))).
Defined.

(** X19.  When the two training folders can be listed and every entry
    that ends in [.pdf] is a document, [load_data] changes nothing and
    returns the texts of the documents that have text, the first category
    before the second and each folder in the order of its listing, with as
    many labels of each category as the folder gave texts.  Entries that
    do not end in [.pdf] are not opened. *)
Theorem load_data_corpus_spec (BASE : pystr) (ml correo : list pystr) (w : World) :
  let folder_ml := DATA_PATH BASE </> lit "labelsMl" in
  let folder_correo := DATA_PATH BASE </> lit "labelsCorreoArg" in
  w_files w !! folder_ml = Some (Directory ml) ->
  w_files w !! folder_correo = Some (Directory correo) ->
  (forall file, file ∈ ml -> endswith file (lit ".pdf") = true ->
                is_Some (document_text w (folder_ml </> file))) ->
  (forall file, file ∈ correo -> endswith file (lit ".pdf") = true ->
                is_Some (document_text w (folder_correo </> file))) ->
  load_data BASE w
  = (Ok (folder_texts w folder_ml ml ++ folder_texts w folder_correo correo,
         replicate (length (folder_texts w folder_ml ml)) (lit "MercadoLibre")
         ++ replicate (length (folder_texts w folder_correo correo)) (lit "CorreoArg")),
     w).
Proof.
  intros folder_ml folder_correo Hml Hcorreo Hallml Hallcorreo.
  unfold load_data, DATA_DIRS. simpl.
  unfold bind at 1. unfold bind at 1. unfold os_listdir at 1.
  fold folder_ml. rewrite Hml. rewrite load_folder by done. simpl.
  unfold bind at 1. unfold bind at 1. unfold os_listdir at 1.
  fold folder_correo. rewrite Hcorreo. rewrite load_folder by done. done.
Qed.

Lemma load_data_corpus_spec_witness :
  load_data Sample.base Sample.training
  = (Ok ([lit "Mercado Envios  Flex"; lit "Correo Argentino"],
         [lit "MercadoLibre"; lit "CorreoArg"]),
     Sample.training).
Proof.
  rewrite (load_data_corpus_spec Sample.base
             [lit "a.pdf"; lit "b.pdf"; lit "leer.txt"] [lit "c.pdf"] Sample.training).
  - reflexivity.
  - reflexivity.
  - reflexivity.
  - intros file Hin Hend.
    repeat (apply elem_of_cons in Hin as [-> | Hin]);
      [eexists; reflexivity | eexists; reflexivity | vm_compute in Hend; discriminate |].
    by apply elem_of_nil in Hin.
  - intros file Hin Hend.
    repeat (apply elem_of_cons in Hin as [-> | Hin]); [eexists; reflexivity |].
    by apply elem_of_nil in Hin.
Defined.



(** X21.  When no training document has text, the training stops at the
    fitting of the vectorizer, with the [ValueError] of the empty
    vocabulary and nothing written. *)
Theorem main_vectorizer_without_text (BASE : pystr) (analyzer : pystr -> list pystr)
    (lines : list pystr) (w : World) :
  load_data BASE w = (Ok ([], []), w) ->
  w_files w !! SWORDS_FILE BASE = Some (TextFile lines) ->
  main_vectorizer BASE analyzer w
  = (Raise (Exn ValueError
              (lit "empty vocabulary; perhaps the documents only contain stop words")),
     w).
Proof.
  intros Hd Hs. unfold main_vectorizer. unfold bind at 1. rewrite Hd.
  unfold bind at 1. unfold load_stopwords, bind at 1, open_text. rewrite Hs.
  reflexivity.
Qed.

Lemma main_vectorizer_without_text_witness :
  main_vectorizer Sample.base Sample.words Scenario.scans_only
  = (Raise (Exn ValueError
              (lit "empty vocabulary; perhaps the documents only contain stop words")),
     Scenario.scans_only).
Proof.
  apply (main_vectorizer_without_text Sample.base Sample.words [lit "de"]
           Scenario.scans_only); reflexivity.
Defined.
